(** * dart-services mini playground (app.js): project store, file operations,
      backend client and import/export, embedded for verification.

    The two variants of app.js (remote service and local runtime) share the
    project store and the file operations word for word; the backend client
    is the remote variant's, the local runtime's compile is embedded next
    to it. *)

From Stdlib Require Import String Ascii List ZArith NArith Lia Bool.
From Stdlib Require Import DecimalString.
Import ListNotations.
Open Scope string_scope.
Set Warnings "-register-all".

(** ** The fragment of JavaScript the program runs on *)

Module JS.

(** Values that reach the program: JSON values (from [JSON.parse], from
    [res.json()]), [undefined] (a missing property), and the properties a
    plain object inherits from [Object.prototype]. Numbers are the integral
    ones ([Date.now()], HTTP status codes). *)
Inductive value : Type :=
| VUndef
| VNull
| VBool (b : bool)
| VNum (z : Z)
| VStr (s : string)
| VArr (elems : list value)
| VObj (own : list (string * value))
| VInherited (name : string).

(** Own enumerable properties of a plain object, in the order
    [Object.keys] lists them. *)
Definition props : Type := list (string * value).

(** ToBoolean. *)
Definition truthy (v : value) : bool :=
  match v with
  | VUndef | VNull => false
  | VBool b => b
  | VNum z => negb (z =? 0)%Z
  | VStr s => negb (s =? "")
  | VArr _ | VObj _ | VInherited _ => true
  end.

(** The [typeof] operator. *)
Definition typeof (v : value) : string :=
  match v with
  | VUndef => "undefined"
  | VNull => "object"
  | VBool _ => "boolean"
  | VNum _ => "number"
  | VStr _ => "string"
  | VArr _ | VObj _ => "object"
  | VInherited n => if n =? "__proto__" then "object" else "function"
  end.

(** [a || b] *)
Definition or_else (a b : value) : value := if truthy a then a else b.

(** [s.endsWith(suffix)] *)
Definition endsWith (s suffix : string) : bool :=
  let n := String.length s in
  let m := String.length suffix in
  if (m <=? n)%nat then substring (n - m) m s =? suffix else false.

(** Array indices: the canonical decimal strings of 0 .. 2^32 - 2. Own keys
    that are array indices are listed first, in numeric order. *)
Definition digit (c : ascii) : option N :=
  let n := N_of_ascii c in
  if ((48 <=? n) && (n <=? 57))%N then Some (n - 48)%N else None.

Fixpoint digits (s : string) (acc : N) : option N :=
  match s with
  | EmptyString => Some acc
  | String c r =>
      match digit c with
      | Some d => digits r (acc * 10 + d)%N
      | None => None
      end
  end.

Definition array_index (s : string) : option N :=
  match s with
  | EmptyString => None
  | String c r =>
      if (c =? "0")%char then
        match r with EmptyString => Some 0%N | _ => None end
      else
        match digits s 0%N with
        | Some n => if (n <=? 4294967294)%N then Some n else None
        | None => None
        end
  end.

(** Own property lookup. *)
Fixpoint get_own (ps : props) (k : string) : option value :=
  match ps with
  | [] => None
  | (k', v) :: r => if k' =? k then Some v else get_own r k
  end.

Definition has_own (ps : props) (k : string) : bool :=
  match get_own ps k with Some _ => true | None => false end.

(** The properties of [Object.prototype]. *)
Definition object_prototype_names : list string :=
  [ "constructor"; "__defineGetter__"; "__defineSetter__"; "hasOwnProperty";
    "__lookupGetter__"; "__lookupSetter__"; "isPrototypeOf";
    "propertyIsEnumerable"; "toString"; "valueOf"; "__proto__";
    "toLocaleString" ].

Definition inherited (k : string) : bool :=
  existsb (String.eqb k) object_prototype_names.

(** [o[k]] on a plain object: the own property, else the inherited one,
    else [undefined]. *)
Definition get (ps : props) (k : string) : value :=
  match get_own ps k with
  | Some v => v
  | None => if inherited k then VInherited k else VUndef
  end.

(** Where a new own key goes in the key order. *)
Fixpoint place (ps : props) (k : string) (v : value) : props :=
  match ps with
  | [] => [(k, v)]
  | (k', v') :: r =>
      match array_index k, array_index k' with
      | Some i, Some i' =>
          if (i <? i')%N then (k, v) :: ps else (k', v') :: place r k v
      | Some _, None => (k, v) :: ps
      | None, _ => (k', v') :: place r k v
      end
  end.

Fixpoint replace (ps : props) (k : string) (v : value) : props :=
  match ps with
  | [] => []
  | (k', v') :: r =>
      if k' =? k then (k', v) :: r else (k', v') :: replace r k v
  end.

(** [o[k] = v] on a plain object, for a key other than ["__proto__"]. *)
Definition set_prop (ps : props) (k : string) (v : value) : props :=
  if has_own ps k then replace ps k v else place ps k v.

(** [o[k] = v] on a plain object, for any key. An assignment to
    ["__proto__"] on an object with no own property of that name goes to
    the setter every object inherits: it ignores a primitive, and for an
    object it replaces the prototype; the own properties stay as they are
    either way. *)
Definition assign (ps : props) (k : string) (v : value) : props :=
  if (k =? "__proto__") && negb (has_own ps k) then ps else set_prop ps k v.

(** [delete o[k]] *)
Definition delete_prop (ps : props) (k : string) : props :=
  filter (fun kv => negb (fst kv =? k)) ps.

(** [Object.keys(o)] *)
Definition Object_keys (ps : props) : list string := map fst ps.

(** [{ ...o }] : a fresh plain object with the own enumerable properties. *)
Definition spread (ps : props) : props := ps.

(** Property read [v.k] on an arbitrary non-nullish value, for a key that
    no prototype defines ([result], [files], [active], ...). *)
Definition field (v : value) (k : string) : value :=
  match v with
  | VObj ps => get ps k
  | _ => VUndef
  end.

Definition nullish (v : value) : bool :=
  match v with VUndef | VNull => true | _ => false end.

End JS.
Import JS.

(** ** Constants *)

Definition LF : string := String (ascii_of_nat 10) EmptyString.

(** [DEFAULT_FILES['main.dart']] (remote variant). *)
Definition DEFAULT_MAIN : string :=
  "// Welcome to mini DartPad (Dart only)" ++ LF ++
  "// You can add more files with the + button (e.g., utils.dart)" ++ LF ++
  "// Then import them in main.dart:" ++ LF ++
  "//   import 'utils.dart';" ++ LF ++
  LF ++
  "import 'dart:html';" ++ LF ++
  LF ++
  "void main() {" ++ LF ++
  "  querySelector('#app')?.text = 'Hello from Dart!';" ++ LF ++
  "  print('Hello, console!');" ++ LF ++
  "}" ++ LF.

Definition DEFAULT_FILES : props := [("main.dart", VStr DEFAULT_MAIN)].

Definition BACKENDS : list string :=
  [ "https://v1.api.dartpad.dev/api/dartservices/v2";
    "https://dart-services.appspot.com/api/dartservices/v2" ].

(** ** State and virtual file system *)

(** The [state] object: [{ files, active }]. *)
Record State : Type := mkState { files : props; active : string }.

(** The page: the in-memory [state], and the state [persist] last wrote
    under [LS_KEY], if any. What [localStorage] holds is the text
    [JSON.stringify] makes of that state, which leaves out the entries
    that are [undefined]: see [stored_text]. *)
Record App : Type := mkApp { state : State; storage : option State }.

Definition with_files (a : App) (f : props) : App :=
  mkApp (mkState f (active (state a))) (storage a).

Definition with_active (a : App) (n : string) : App :=
  mkApp (mkState (files (state a)) n) (storage a).

Definition persist (a : App) : App := mkApp (state a) (Some (state a)).

(** [Object.keys(state.files)[0] || 'main.dart'] *)
Definition first_key_or_default (f : props) : string :=
  match Object_keys f with
  | k :: _ => if k =? "" then "main.dart" else k
  | [] => "main.dart"
  end.

Definition ensureActiveExists (a : App) : App :=
  if negb (truthy (get (files (state a)) (active (state a))))
  then with_active a (first_key_or_default (files (state a)))
  else a.

(** [setActive]; the editor, the title and the file list it refreshes are
    views of [state] and are not part of the project. This is the course
    of [setActive] for an entry that the editor can take as its text;
    [setActive_page] has the views and the entry that cannot be
    converted. *)
Definition setActive (name : string) (a : App) : App :=
  if negb (truthy (get (files (state a)) name)) then a
  else persist (with_active a name).

(** ** File operations *)

Definition MSG_EXTENSION : string := "拡張子は .dart にしてください".
Definition MSG_DUPLICATE : string := "同名ファイルが既にあります".
Definition MSG_LAST_FILE : string := "最低1ファイルは必要です".

(** Each operation takes what the user answers to its dialogs ([prompt]
    gives [None] when cancelled) and returns the page together with the
    [alert] it raised, if any. *)
Definition promptNewFile (answer : option string) (a : App)
  : App * option string :=
  match answer with
  | None => (a, None)
  | Some name =>
      if name =? "" then (a, None)
      else if negb (endsWith name ".dart") then (a, Some MSG_EXTENSION)
      else if truthy (get (files (state a)) name) then (a, Some MSG_DUPLICATE)
      else
        let a := with_files a
                   (set_prop (files (state a)) name
                      (VStr ("// " ++ name ++ LF))) in
        let a := persist a in
        let a := setActive name a in
        (a, None)
  end.

Definition promptRename (oldName : string) (answer : option string) (a : App)
  : App * option string :=
  match answer with
  | None => (a, None)
  | Some name =>
      if (name =? "") || (name =? oldName) then (a, None)
      else if negb (endsWith name ".dart") then (a, Some MSG_EXTENSION)
      else if truthy (get (files (state a)) name) then (a, Some MSG_DUPLICATE)
      else
        let a := with_files a
                   (set_prop (files (state a)) name
                      (get (files (state a)) oldName)) in
        let a := with_files a (delete_prop (files (state a)) oldName) in
        let a := if active (state a) =? oldName then with_active a name
                 else a in
        let a := persist a in
        let a := setActive (active (state a)) a in
        (a, None)
  end.

Definition promptDelete (name : string) (confirmed : bool) (a : App)
  : App * option string :=
  if (List.length (Object_keys (files (state a))) =? 1)%nat
  then (a, Some MSG_LAST_FILE)
  else if negb confirmed then (a, None)
  else
    let a := with_files a (delete_prop (files (state a)) name) in
    let a := ensureActiveExists a in
    let a := persist a in
    let a := setActive (active (state a)) a in
    (a, None).

(** A run of file operations, each with the user's answers. *)
Inductive op : Type :=
| OpAdd (answer : option string)
| OpRename (oldName : string) (answer : option string)
| OpDelete (name : string) (confirmed : bool).

Definition step (o : op) (a : App) : App :=
  match o with
  | OpAdd answer => fst (promptNewFile answer a)
  | OpRename oldName answer => fst (promptRename oldName answer a)
  | OpDelete name confirmed => fst (promptDelete name confirmed a)
  end.

Definition run (os : list op) (a : App) : App :=
  fold_left (fun acc o => step o acc) os a.

(** ** Well-formedness *)

(** A property list stands for an object when no key occurs twice. *)
Definition is_object (f : props) : Prop := NoDup (Object_keys f).

(** The spec's validity: [files] non-empty and [active] one of its keys. *)
Definition valid (s : State) : Prop :=
  is_object (files s) /\ files s <> [] /\ In (active s) (Object_keys (files s)).

(** The data model's file names: every key ends in [.dart]. *)
Definition well_named (f : props) : Prop :=
  Forall (fun k => endsWith k ".dart" = true) (Object_keys f).

(** What a run preserves: a valid project whose names all end in [.dart]. *)
Definition inv (a : App) : Prop :=
  valid (state a) /\ well_named (files (state a)).


(** The editor's [input] handler, [state.files[state.active] =
    UI.editor.value; persist()] (the line-number refresh it schedules is a
    view). *)
Definition editorInput (text : string) (a : App) : App :=
  persist (with_files a
             (assign (files (state a)) (active (state a)) (VStr text))).

(** The spec's example project. *)
Definition example_app : App :=
  mkApp (mkState [("main.dart", VStr "void main(){}")] "main.dart") None.

(** A project that holds a file whose name is the empty string. *)
Definition unnamed_file_app : App :=
  mkApp (mkState [("", VStr "x"); ("a.dart", VStr "y")] "a.dart") None.

(** A project that holds an empty file. *)
Definition empty_file_app : App :=
  mkApp (mkState [("a.dart", VStr "x"); ("b.dart", VStr "")] "a.dart") None.

(** A project that holds a file named like a method of every object. *)
Definition inherited_name_app : App :=
  mkApp (mkState [("toString", VStr "x"); ("a.dart", VStr "y")] "toString")
        None.

(** ** Host environment: errors, network, status line, console, preview *)

(** An exception value: [name], [message] and the [stack] the host attached
    (empty when it attached none). *)
Record error : Type :=
  mkErr { err_name : string; err_message : string; err_stack : string }.

(** [String(e)], that is [Error.prototype.toString]. *)
Definition error_toString (e : error) : string :=
  if err_name e =? "" then err_message e
  else if err_message e =? "" then err_name e
  else err_name e ++ ": " ++ err_message e.

(** [e.stack || String(e)] *)
Definition stack_or_string (e : error) : string :=
  if err_stack e =? "" then error_toString e else err_stack e.

(** What [res.json()] settles to. *)
Inductive body : Type :=
| BodyError (e : error)
| BodyJSON (v : value).

(** What [fetch] settles to: a rejection, or a response with [ok],
    [status], [statusText] and its body. *)
Inductive fetched : Type :=
| FetchRejected (e : error)
| FetchResponse (ok : bool) (status : Z) (statusText : string) (json : body).

(** The host: the answer to the [n]-th request of the page, by URL and
    payload; the stack trace given to an error built by [new Error]; and
    the digits the engine prints for a number beyond 2^53, where they
    are the shortest that read back as the same number. *)
Record host : Type := mkHost {
  fetch : nat -> string -> value -> fetched;
  stack_trace : string -> string;
  big_number_text : Z -> string
}.

(** [new Error(message)] *)
Definition new_Error (h : host) (message : string) : error :=
  mkErr "Error" message (stack_trace h message).

(** The [TypeError] of a property read on [null]. *)
Definition null_read_TypeError (h : host) (prop : string) : error :=
  let m := "Cannot read properties of null (reading '" ++ prop ++ "')" in
  mkErr "TypeError" m (stack_trace h m).

(** Decimal rendering of a number inside a template literal. *)
Definition number_toString (z : Z) : string :=
  NilZero.string_of_int (Z.to_int z).

(** Asynchronous code that may throw, counting the requests made. *)
Definition M (A : Type) : Type := nat -> (error + A) * nat.

Definition ret {A} (x : A) : M A := fun n => (inr x, n).
Definition throw {A} (e : error) : M A := fun n => (inl e, n).
Definition bind {A B} (m : M A) (f : A -> M B) : M B :=
  fun n => match m n with
           | (inl e, n') => (inl e, n')
           | (inr x, n') => f x n'
           end.

Notation "x <- m ;; k" := (bind m (fun x => k))
  (at level 61, m at next level, right associativity).

(** ** Backend helpers *)

(** One turn of the loop of [postJSON]: the [try] block on [base]. *)
Definition post_once (h : host) (base path : string) (payload : value)
  : M value :=
  fun n =>
    match fetch h n (base ++ "/" ++ path) payload with
    | FetchRejected e => (inl e, S n)
    | FetchResponse ok status statusText json =>
        if negb ok
        then (inl (new_Error h (number_toString status ++ " " ++ statusText)),
              S n)
        else match json with
             | BodyError e => (inl e, S n)
             | BodyJSON v => (inr v, S n)
             end
    end.

(** The loop of [postJSON] over the remaining bases, with [lastErr]. *)
Fixpoint postJSON_loop (h : host) (bases : list string) (path : string)
    (payload : value) (lastErr : option error) : M value :=
  match bases with
  | [] =>
      throw (match lastErr with
             | Some e => e
             | None => new_Error h "All backends failed"
             end)
  | base :: rest =>
      fun n =>
        match post_once h base path payload n with
        | (inr v, n') => (inr v, n')
        | (inl e, n') => postJSON_loop h rest path payload (Some e) n'
        end
  end.

Definition postJSON (h : host) (path : string) (payload : value) : M value :=
  postJSON_loop h BACKENDS path payload None.

(** The object store, for the objects [buildSourcePayload] makes: an
    address is an index into the list of objects. *)
Definition loc : Type := nat.
Definition heap : Type := list props.

Definition read (hp : heap) (l : loc) : props := nth l hp [].

Fixpoint write (hp : heap) (l : loc) (ps : props) : heap :=
  match hp, l with
  | [], _ => []
  | _ :: r, O => ps :: r
  | o :: r, S l' => o :: write r l' ps
  end.

Definition alloc (hp : heap) (ps : props) : heap * loc :=
  ((hp ++ [ps])%list, List.length hp).

(** The payload object: [{ source }] or [{ sources, source }], where
    [sources] is a reference. *)
Record payload : Type :=
  mkPayload { sources : option loc; source : value }.

(** [buildSourcePayload] on the store; [st_files] is where [state.files]
    lives. *)
Definition buildSourcePayload_store (singleOnly : bool) (hp : heap)
    (st_files : loc) : heap * payload :=
  let '(hp, files) := alloc hp (spread (read hp st_files)) in
  let hp :=
    if negb (truthy (get (read hp files) "main.dart"))
    then write hp files
           (set_prop (read hp files) "main.dart" (get DEFAULT_FILES "main.dart"))
    else hp in
  let p :=
    if singleOnly
    then mkPayload None (get (read hp files) "main.dart")
    else mkPayload (Some files) (get (read hp files) "main.dart") in
  (hp, p).

(** The payload as [JSON.stringify] reads it off the store. *)
Definition payload_value (hp : heap) (p : payload) : value :=
  match sources p with
  | Some l => VObj [("sources", VObj (read hp l)); ("source", source p)]
  | None => VObj [("source", source p)]
  end.

(** [buildSourcePayload] for a page whose [state.files] is the only object
    of the store. *)
Definition buildSourcePayload (singleOnly : bool) (a : App) : value :=
  let '(hp, p) := buildSourcePayload_store singleOnly [files (state a)] 0 in
  payload_value hp p.

(** ** String conversion *)

(** The [TypeError] of converting an object that hides [toString]. *)
Definition to_primitive_TypeError (h : host) : error :=
  let m := "Cannot convert object to primitive value" in
  mkErr "TypeError" m (stack_trace h m).

(** Whether ToString throws: on an object with an own [toString] property
    (never a function, in a JSON value), and on an array that holds such
    a value. *)
Fixpoint unconvertible (v : value) : bool :=
  match v with
  | VObj ps => has_own ps "toString"
  | VArr l =>
      (fix any (l : list value) : bool :=
         match l with
         | [] => false
         | x :: r => unconvertible x || any r
         end) l
  | _ => false
  end.

(** The text of a number: its decimal digits up to 2^53 in size, the
    host's digits beyond. *)
Definition number_text (h : host) (z : Z) : string :=
  if (Z.abs z <=? 9007199254740992)%Z then number_toString z
  else big_number_text h z.

(** ToString, as a template literal or a DOM string attribute applies it.
    A plain object prints through the
    inherited [toString]; one with an own [toString] property (never a
    function, in a JSON value) cannot be converted. An array joins its
    elements with commas, [null] and [undefined] as empty. The inherited
    [constructor] is the function [Object]; the other inherited functions
    are named by their key. *)
Fixpoint toString (h : host) (v : value) : error + string :=
  match v with
  | VUndef => inr "undefined"
  | VNull => inr "null"
  | VBool b => inr (if b then "true" else "false")
  | VNum z => inr (number_text h z)
  | VStr s => inr s
  | VArr l =>
      (fix go (l : list value) : error + string :=
         match l with
         | [] => inr ""
         | x :: r =>
             match (if nullish x then inr "" else toString h x) with
             | inl e => inl e
             | inr sx =>
                 match r with
                 | [] => inr sx
                 | _ :: _ =>
                     match go r with
                     | inl e => inl e
                     | inr sr => inr (sx ++ "," ++ sr)
                     end
                 end
             end
         end) l
  | VObj ps =>
      if has_own ps "toString" then inl (to_primitive_TypeError h)
      else inr "[object Object]"
  | VInherited n =>
      inr (if n =? "__proto__" then "[object Object]"
           else if n =? "constructor"
                then "function Object() { [native code] }"
                else "function " ++ n ++ "() { [native code] }")
  end.


(** ** Status line, console and preview *)

(** [UI.status] with [statusTimer]: the text, [dataset.kind], and whether a
    timeout that clears the text is pending. *)
Record Status : Type :=
  mkStatus { status_text : string; status_kind : string; clear_pending : bool }.

(** A [div] of the console: [className] and [textContent]. *)
Record ConsoleLine : Type :=
  mkLine { line_class : string; line_text : string }.

(** The views the backend operations write: the status line, the children
    of [UI.console], and the compiled script of the document loaded in
    [UI.preview], if any. *)
Record UIState : Type :=
  mkUI { status : Status; console : list ConsoleLine; preview : option value }.

Definition STATUS_DELAY_MS : Z := 3000.

(** [setStatus(msg, isError = false)]: a pending timeout is cancelled, and
    a new one is set only for a status that is not an error. *)
Definition setStatus (msg : string) (isError : bool) (ui : UIState) : UIState :=
  mkUI (mkStatus msg (if isError then "error" else "ok")
                 (if negb isError then true else false))
       (console ui) (preview ui).

(** The pending timeout of [setStatus] fires, 3000 ms after it was set. *)
Definition statusTimerFires (ui : UIState) : UIState :=
  if clear_pending (status ui)
  then mkUI (mkStatus "" (status_kind (status ui)) false)
            (console ui) (preview ui)
  else ui.

(** [UI.console.textContent = ''] *)
Definition clearConsole (ui : UIState) : UIState :=
  mkUI (status ui) [] (preview ui).

Definition appendConsole (level text : string) (ui : UIState) : UIState :=
  mkUI (status ui)
       (console ui ++ [mkLine ("log " ++ level) ("[" ++ level ++ "] " ++ text)])
       (preview ui).

(** [runInIframe(compiledJS)]: the document built around the script (the
    console prelude, the [#app] mount point) is fixed. *)
Definition runInIframe (compiledJS : value) (ui : UIState) : UIState :=
  mkUI (status ui) (console ui) (Some compiledJS).

(** ** Compile and run (remote variant) *)

(** [json.result || json.compiledJS || json.compiledJavascript || json.js] *)
Definition probe_compiled (h : host) (json : value) : M value :=
  if nullish json then throw (null_read_TypeError h "result")
  else ret (or_else
              (or_else
                 (or_else (field json "result") (field json "compiledJS"))
                 (field json "compiledJavascript"))
              (field json "js")).

(** The [try] block of [compileAndRun] up to the point where the script is
    known. *)
Definition compile (h : host) (a : App) : M value :=
  json <- postJSON h "compile" (buildSourcePayload false a) ;;
  js <- probe_compiled h json ;;
  js <- (if negb (truthy js)
         then json <- postJSON h "compile" (buildSourcePayload true a) ;;
              probe_compiled h json
         else ret js) ;;
  if negb (truthy js)
  then throw (new_Error h "Compiled JavaScript not found in response")
  else ret js.

(** The [catch] block of [compileAndRun]. *)
Definition compile_failed (e : error) (ui : UIState) : UIState :=
  let ui := setStatus ("コンパイル失敗: " ++ err_message e) true ui in
  appendConsole "error" (stack_or_string e) ui.

(** What follows the script, or the [catch] block. [runInIframe] puts the
    script into a template literal: one that cannot be converted to text
    makes it throw, and the [catch] block reports that. *)
Definition finish_compile (h : host) (r : error + value) (ui : UIState)
  : UIState :=
  match r with
  | inr js =>
      let ui := setStatus "実行中…" false ui in
      if unconvertible js then compile_failed (to_primitive_TypeError h) ui
      else
        let ui := runInIframe js ui in
        setStatus "完了" false ui
  | inl e => compile_failed e ui
  end.

Definition compileAndRun (h : host) (a : App) (ui : UIState) (n : nat)
  : UIState * nat :=
  let ui := setStatus "コンパイル中…" false ui in
  let ui := clearConsole ui in
  let '(r, n) := compile h a n in
  (finish_compile h r ui, n).

(** ** Compile and run (local-runtime variant) *)

(** [window.dart.dart2js], when the SDK is loaded: the settled result of
    [dart.dart2js(encoder.encode(mainCode))] for an entry [mainCode] that
    the encoder can convert to text. *)
Definition runtime : Type := option (value -> error + value).

(** The [try] block of the local [compileAndRun] up to the script.
    [encoder.encode(mainCode)] comes before the check for the SDK and
    throws for an entry that cannot be converted to text. *)
Definition compile_local (h : host) (rt : runtime) (a : App) : error + value :=
  let mainCode := get (files (state a)) "main.dart" in
  if negb (truthy mainCode) then inl (new_Error h "main.dartが存在しません")
  else
    if unconvertible mainCode then inl (to_primitive_TypeError h)
    else
      match rt with
      | None => inl (new_Error h "dart_sdk_new.js が読み込まれていません")
      | Some dart2js =>
          match dart2js mainCode with
          | inl e => inl e
          | inr js =>
              if negb (truthy js)
              then inl (new_Error h "コンパイル結果が空です")
              else inr js
          end
      end.

(** The [catch] block of the local [compileAndRun]. *)
Definition compile_failed_local (e : error) (ui : UIState) : UIState :=
  let ui := setStatus ("コンパイル失敗: " ++ err_message e) true ui in
  let ui := appendConsole "error" (stack_or_string e) ui in
  mkUI (status ui)
       (console ui ++
          [mkLine "log error"
             ("[error] " ++ (if err_message e =? "" then error_toString e
                             else err_message e))])
       (preview ui).

Definition finish_compile_local (h : host) (r : error + value) (ui : UIState)
  : UIState :=
  match r with
  | inr js =>
      let ui := setStatus "実行中…" false ui in
      if unconvertible js
      then compile_failed_local (to_primitive_TypeError h) ui
      else
        let ui := runInIframe js ui in
        setStatus "完了" false ui
  | inl e => compile_failed_local e ui
  end.

Definition compileAndRun_local (h : host) (rt : runtime) (a : App)
    (ui : UIState) : UIState :=
  let ui := setStatus "コンパイル中…" false ui in
  let ui := clearConsole ui in
  finish_compile_local h (compile_local h rt a) ui.

(** ** Import / Export *)

(** Values [JSON.stringify] leaves out of an object and turns to [null]
    in an array: [undefined] and functions. *)
Definition unserializable (v : value) : bool :=
  match v with
  | VUndef => true
  | VInherited n => negb (n =? "__proto__")
  | _ => false
  end.

(** [JSON.parse(JSON.stringify(v, null, 2))] for a value that serialises:
    the text lists an object's properties in key order and the parser
    defines them in that order. *)
Fixpoint JSON_reparse (v : value) : value :=
  match v with
  | VArr l =>
      VArr (map (fun x => if unserializable x then VNull else JSON_reparse x) l)
  | VObj ps =>
      VObj ((fix go (ps : list (string * value)) : list (string * value) :=
               match ps with
               | [] => []
               | (k, x) :: r =>
                   if unserializable x then go r
                   else (k, JSON_reparse x) :: go r
               end) ps)
  | VInherited _ => VObj []
  | VUndef => VUndef
  | VNull => VNull
  | VBool b => VBool b
  | VNum z => VNum z
  | VStr s => VStr s
  end.

(** The [data] object of [exportProject]; [now] is [Date.now()]. *)
Definition export_data (now : Z) (a : App) : value :=
  VObj [("files", VObj (files (state a)));
        ("active", VStr (active (state a)));
        ("ts", VNum now)].

(** The document [exportProject] downloads, as a parser reads it back. *)
Definition exportProject (now : Z) (a : App) : value :=
  JSON_reparse (export_data now a).

(** How the [onload] handler of [importProject] ends: in its [catch], with
    a project, or with [state.files] and [state.active] set to values that
    are no mapping and name (an array, a number, ...). *)
Inductive import_outcome : Type :=
| ImportFailed (e : error)
| Imported (a : App)
| ImportedUntyped (f act : value).

(** The handler on what [JSON.parse(reader.result)] gives. *)
Definition importProject (h : host) (parsed : error + value) (a : App)
  : import_outcome :=
  match parsed with
  | inl e => ImportFailed e
  | inr obj =>
      if nullish obj then ImportFailed (null_read_TypeError h "files")
      else
        let f := field obj "files" in
        if negb (truthy f) || negb (typeof f =? "object")
        then ImportFailed (new_Error h "不正な形式")
        else
          let act := or_else (field obj "active") (VStr "main.dart") in
          match f, act with
          | VObj ps, VStr s =>
              let a := mkApp (mkState ps s) (storage a) in
              let a := persist a in
              let a := setActive (active (state a)) a in
              Imported a
          | _, _ => ImportedUntyped f act
          end
  end.

(** The values of [state.files] and [state.active] after the handler, when
    it replaced them. *)
Definition imported_files (o : import_outcome) : option value :=
  match o with
  | ImportFailed _ => None
  | Imported a => Some (VObj (files (state a)))
  | ImportedUntyped f _ => Some f
  end.

Definition imported_active (o : import_outcome) : option value :=
  match o with
  | ImportFailed _ => None
  | Imported a => Some (VStr (active (state a)))
  | ImportedUntyped _ act => Some act
  end.

(** A value without [undefined] or inherited members: a JSON value. *)
Fixpoint is_json (v : value) : bool :=
  match v with
  | VUndef | VInherited _ => false
  | VNull | VBool _ | VNum _ | VStr _ => true
  | VArr l => forallb is_json l
  | VObj ps =>
      (fix all (ps : list (string * value)) : bool :=
         match ps with
         | [] => true
         | (_, x) :: r => is_json x && all r
         end) ps
  end.


(** ** The candidate fallback, in the spec's words *)

(** What each candidate answers when tried in turn from request [n] on. *)
Fixpoint attempts (h : host) (bases : list string) (path : string)
    (payload : value) (n : nat) : list (error + value) :=
  match bases with
  | [] => []
  | base :: rest =>
      fst (post_once h base path payload n)
        :: attempts h rest path payload (S n)
  end.

(** The first candidate that completes without an error, with its
    position. *)
Fixpoint first_success (rs : list (error + value)) : option (nat * value) :=
  match rs with
  | [] => None
  | inr v :: _ => Some (O, v)
  | inl _ :: r =>
      match first_success r with
      | Some (i, v) => Some (S i, v)
      | None => None
      end
  end.

(** The error of the last candidate, [d] when there is none. *)
Fixpoint last_error (rs : list (error + value)) (d : error) : error :=
  match rs with
  | [] => d
  | inl e :: r => last_error r e
  | inr _ :: r => last_error r d
  end.

(** The spec of [postJSON]: the response of the first candidate that
    succeeds, after one request per candidate up to it; else the last
    candidate's error, after one request per candidate. *)
Definition postJSON_spec (h : host) (path : string) (payload : value)
  : M value :=
  fun n =>
    let rs := attempts h BACKENDS path payload n in
    match first_success rs with
    | Some (i, v) => (inr v, n + S i)
    | None =>
        (inl (last_error rs (new_Error h "All backends failed")),
         n + List.length rs)
    end.

(** The copy [buildSourcePayload] works on: the files, with the default
    [main.dart] when theirs is missing or reads falsy. *)
Definition payload_files (f : props) : props :=
  if negb (truthy (get f "main.dart"))
  then set_prop f "main.dart" (get DEFAULT_FILES "main.dart")
  else f.


(** Which values pass the check on [files]: the objects and the arrays. *)
Definition object_value (v : value) : bool :=
  match v with VObj _ | VArr _ => true | _ => false end.

(** Import documents: no files at all, and an [active] that names none of
    the files. *)
Definition doc_no_files : value := VObj [("files", VObj [])].

Definition doc_dangling : value :=
  VObj [("files", VObj [("a.dart", VStr "x")]); ("active", VStr "gone.dart")].

Definition dangling_state : State := mkState [("a.dart", VStr "x")] "gone.dart".

(** The four fields of a compile response, in the order they are probed. *)
Definition compiled_fields (json : value) : list value :=
  [field json "result"; field json "compiledJS";
   field json "compiledJavascript"; field json "js"].

(** The first truthy value of a list, the last value when none is (and
    [undefined] for no value at all). *)
Fixpoint first_truthy (vs : list value) : value :=
  match vs with
  | [] => VUndef
  | [v] => v
  | v :: r => if truthy v then v else first_truthy r
  end.

(** The page after a run of script [js], and after a failure with [e]. *)
Definition ran (js : value) (ui : UIState) : UIState :=
  mkUI (mkStatus "完了" "ok" true) [] (Some js).

Definition failed (e : error) (ui : UIState) : UIState :=
  mkUI (mkStatus ("コンパイル失敗: " ++ err_message e) "error" false)
       [mkLine "log error" ("[error] " ++ stack_or_string e)]
       (preview ui).

(** ** Sample hosts and pages *)

Definition no_stack : string -> string := fun _ => "".

Definition fetch_failed : error := mkErr "TypeError" "Failed to fetch" "".

(** Every request is rejected. *)
Definition host_down : host := mkHost (fun _ _ _ => FetchRejected fetch_failed) no_stack number_toString.

(** Every backend answers [{}]. *)
Definition host_empty : host :=
  mkHost (fun _ _ _ => FetchResponse true 200 "OK" (BodyJSON (VObj []))) no_stack
         number_toString.

(** The first backend answers 503, the second a compiled script. *)
Definition host_fallback : host :=
  mkHost (fun _ url _ =>
            if url =? "https://v1.api.dartpad.dev/api/dartservices/v2/compile"
            then FetchResponse false 503 "Service Unavailable"
                   (BodyJSON VNull)
            else FetchResponse true 200 "OK"
                   (BodyJSON (VObj [("result", VStr "main();")])))
         no_stack number_toString.

Definition blank_ui : UIState := mkUI (mkStatus "" "ok" false) [] None.

(** What [res.json()] rejects with on a body that is no JSON. *)
Definition not_json : error :=
  mkErr "SyntaxError" "Unexpected token '<' is not valid JSON" "".

(** The first backend answers 200 with a body that is no JSON, the second
    with a compiled script. *)
Definition host_bad_body : host :=
  mkHost (fun _ url _ =>
            if url =? "https://v1.api.dartpad.dev/api/dartservices/v2/compile"
            then FetchResponse true 200 "OK" (BodyError not_json)
            else FetchResponse true 200 "OK"
                   (BodyJSON (VObj [("result", VStr "main();")])))
         no_stack number_toString.

(** Every backend answers 200 with a body that is no JSON. *)
Definition host_no_json : host :=
  mkHost (fun _ _ _ => FetchResponse true 200 "OK" (BodyError not_json))
         no_stack number_toString.

(** The first request is answered 200 with the body [null]; any later
    request with a compiled script. *)
Definition host_null_first : host :=
  mkHost (fun n _ _ =>
            match n with
            | O => FetchResponse true 200 "OK" (BodyJSON VNull)
            | S _ => FetchResponse true 200 "OK"
                       (BodyJSON (VObj [("result", VStr "main();")]))
            end)
         no_stack number_toString.

(** Every backend answers with a script that is an object hiding
    [toString]. *)
Definition host_odd_script : host :=
  mkHost (fun _ _ _ =>
            FetchResponse true 200 "OK"
              (BodyJSON (VObj [("result", VObj [("toString", VNum 1)])])))
         no_stack number_toString.


(** A project of two files, and the page after ["b.dart"] was deleted and
    a rename of it, armed by a long press before the deletion, went
    through with the new name ["n.dart"]. *)
Definition two_file_app : App :=
  mkApp (mkState [("a.dart", VStr "x"); ("b.dart", VStr "y")] "a.dart") None.

Definition stale_rename_app : App :=
  run [OpDelete "b.dart" true; OpRename "b.dart" (Some "n.dart")] two_file_app.

(** ** Text: lines *)

Definition LFchar : ascii := ascii_of_nat 10.

(** [s.split('\n')] *)
Fixpoint split_lines (s : string) : list string :=
  match s with
  | EmptyString => [EmptyString]
  | String c r =>
      if (c =? LFchar)%char then EmptyString :: split_lines r
      else match split_lines r with
           | l :: ls => String c l :: ls
           | [] => [String c EmptyString]
           end
  end.

(** [xs.join(sep)] on strings *)
Fixpoint join (sep : string) (xs : list string) : string :=
  match xs with
  | [] => EmptyString
  | x :: r =>
      match r with
      | [] => x
      | _ :: _ => x ++ sep ++ join sep r
      end
  end.

Definition nat_toString (n : nat) : string :=
  NilZero.string_of_uint (Nat.to_uint n).

(** The gutter text of [refreshLineNumbers] for the editor's text:
    [Array.from({ length: lines }, (_, i) => i + 1).join('\n')]. *)
Definition line_numbers (text : string) : string :=
  join LF (map nat_toString (seq 1 (List.length (split_lines text)))).

(** ** Views *)

(** A button of the file list: [textContent] and [className]. *)
Record FileButton : Type := mkButton { btn_text : string; btn_class : string }.

(** The children [renderFileList] gives [UI.fileList]. *)
Definition renderFileList (st : State) : list FileButton :=
  map (fun name =>
         mkButton name
           ("file-item" ++ (if name =? active st then " active" else "")))
      (Object_keys (files st)).

(** The editor pane: [UI.editor.value], [UI.lineNums.textContent] and
    [UI.filenameTitle.textContent]. *)
Record Editor : Type :=
  mkEditor { editor_value : string; line_nums : string; filename_title : string }.

Definition refreshLineNumbers (ed : Editor) : Editor :=
  mkEditor (editor_value ed) (line_numbers (editor_value ed))
           (filename_title ed).

(** ** Start-up and reset *)

(** [{ files: { ...DEFAULT_FILES }, active: 'main.dart' }] *)
Definition default_state : State := mkState (spread DEFAULT_FILES) "main.dart".

(** [loadState()]: [stored] is what [localStorage] holds under [LS_KEY],
    if anything, as [JSON.parse] settles it. An empty text, a missing
    entry and a text that does not parse all give [null]. *)
Definition loadState (stored : option (error + value)) : value :=
  match stored with
  | Some (inr v) => v
  | Some (inl _) | None => VNull
  end.

(** [Object.keys(v).length === 0] for a truthy JSON value [v]. *)
Definition no_keys (v : value) : bool :=
  match v with
  | VObj ps => match ps with [] => true | _ => false end
  | VArr l => match l with [] => true | _ => false end
  | VStr s => s =? ""
  | _ => true
  end.

(** How the page starts: with the default project, with the stored
    project, or with a stored value that is no [{files, active}] of a
    mapping and a name, kept as it is. *)
Inductive boot_outcome : Type :=
| BootDefault (a : App)
| BootLoaded (a : App)
| BootUntyped (st : value).

(** The initialisation of [state] and the initial [setActive(state.active)]. *)
Definition startup (stored : option (error + value)) : boot_outcome :=
  let st := loadState stored in
  if negb (truthy st) || negb (truthy (field st "files"))
     || no_keys (field st "files")
  then
    let a := persist (mkApp default_state None) in
    BootDefault (setActive (active (state a)) a)
  else
    match field st "files", field st "active" with
    | VObj ps, VStr s =>
        let a := mkApp (mkState ps s) (Some (mkState ps s)) in
        BootLoaded (setActive (active (state a)) a)
    | _, _ => BootUntyped st
    end.

(** The text [persist] writes, as a reload parses it. *)
Definition stored_state (st : State) : value :=
  JSON_reparse (VObj [("files", VObj (files st)); ("active", VStr (active st))]).

Definition hardReset (confirmed : bool) (a : App) (ui : UIState)
  : App * UIState :=
  if negb confirmed then (a, ui)
  else
    let a := mkApp default_state (storage a) in
    let a := persist a in
    let a := setActive "main.dart" a in
    (a, setStatus "初期化しました" false ui).

(** ** The editor pane *)

Definition CRchar : ascii := ascii_of_nat 13.

(** The newline normalisation of a textarea's value: CR LF and CR to LF. *)
Fixpoint normalize_newlines (s : string) : string :=
  match s with
  | EmptyString => EmptyString
  | String c r =>
      if (c =? CRchar)%char then
        match r with
        | String c2 r2 =>
            if (c2 =? LFchar)%char then String LFchar (normalize_newlines r2)
            else String LFchar (normalize_newlines r)
        | EmptyString => String LFchar EmptyString
        end
      else String c (normalize_newlines r)
  end.

(** [setActive] with the views it refreshes. An entry that cannot be
    converted to text makes the assignment to [UI.editor.value] throw:
    [state.active] and the title are set, the rest is not reached. *)
Definition setActive_page (h : host) (name : string) (a : App) (ed : Editor)
  : App * Editor :=
  if negb (truthy (get (files (state a)) name)) then (a, ed)
  else
    let a := with_active a name in
    match toString h (get (files (state a)) name) with
    | inl _ => (a, mkEditor (editor_value ed) (line_nums ed) name)
    | inr text =>
        let ed := mkEditor (normalize_newlines text) (line_nums ed) name in
        let ed := refreshLineNumbers ed in
        (persist a, ed)
    end.

(** ** Analyze and format *)

(** [v?.k] *)
Definition opt_field (v : value) (k : string) : value :=
  if nullish v then VUndef else field v k.

(** The code points of a string, as [for ... of] walks them: a new one
    starts at every byte that is no UTF-8 continuation byte. *)
Definition continuation (c : ascii) : bool :=
  let n := N_of_ascii c in ((128 <=? n) && (n <=? 191))%N.

Fixpoint code_points (s : string) : list string :=
  match s with
  | EmptyString => []
  | String c r =>
      match code_points r with
      | p :: ps =>
          match r with
          | String c2 _ =>
              if continuation c2 then String c p :: ps
              else String c EmptyString :: p :: ps
          | EmptyString => [String c EmptyString]
          end
      | [] => [String c EmptyString]
      end
  end.

(** [s.length]: the UTF-16 code units, two for a code point that takes
    four bytes. *)
Fixpoint utf16_length (s : string) : nat :=
  match s with
  | EmptyString => O
  | String c r =>
      ((if continuation c then 0
        else if (240 <=? N_of_ascii c)%N then 2 else 1) + utf16_length r)%nat
  end.

(** [probs.length] *)
Definition length_of (v : value) : value :=
  match v with
  | VArr l => VNum (Z.of_nat (List.length l))
  | VStr s => VNum (Z.of_nat (utf16_length s))
  | VObj ps => get ps "length"
  | _ => VUndef
  end.

Definition not_iterable_TypeError (h : host) : error :=
  let m := "probs is not iterable" in mkErr "TypeError" m (stack_trace h m).

(** What [for (const p of probs)] walks. *)
Definition iterate (h : host) (v : value) : error + list value :=
  match v with
  | VArr l => inr l
  | VStr s => inr (map VStr (code_points s))
  | _ => inl (not_iterable_TypeError h)
  end.

(** The line [renderAnalysis] makes of one issue [p]. *)
Definition issue_line (h : host) (active_name : string) (p : value)
  : error + string :=
  if nullish p then inl (null_read_TypeError h "sourceName")
  else
    let file := or_else (or_else (field p "sourceName")
                                 (opt_field (field p "location") "sourceName"))
                        (VStr active_name) in
    let line := or_else (or_else (field p "line")
                                 (opt_field (field p "location") "line"))
                        (VStr "?") in
    let severity := or_else (or_else (field p "kind") (field p "severity"))
                            (VStr "info") in
    match toString h severity with
    | inl e => inl e
    | inr sv =>
        match toString h file with
        | inl e => inl e
        | inr sf =>
            match toString h line with
            | inl e => inl e
            | inr sl =>
                match toString h (field p "message") with
                | inl e => inl e
                | inr sm =>
                    inr ("[" ++ sv ++ "] " ++ sf ++ ":" ++ sl ++ LF ++ "  "
                         ++ sm)
                end
            end
        end
    end.

Fixpoint issue_lines (h : host) (active_name : string) (ps : list value)
  : error + list string :=
  match ps with
  | [] => inr []
  | p :: r =>
      match issue_line h active_name p with
      | inl e => inl e
      | inr l =>
          match issue_lines h active_name r with
          | inl e => inl e
          | inr ls => inr (l :: ls)
          end
      end
  end.

Definition NO_PROBLEMS : string := "✅ 問題は見つかりませんでした".

(** The array [out] of [renderAnalysis(result)], or what it throws. *)
Definition renderAnalysis_out (h : host) (active_name : string) (result : value)
  : error + list string :=
  if nullish result then inl (null_read_TypeError h "issues")
  else
    let probs := or_else (or_else (field result "issues")
                                  (opt_field (field result "issues") "issues"))
                         (VArr []) in
    if negb (truthy (length_of probs)) then inr [NO_PROBLEMS]
    else
      match iterate h probs with
      | inl e => inl e
      | inr ps => issue_lines h active_name ps
      end.

(** [renderAnalysis(result)] on the console: it is emptied first, and
    holds the joined lines as one text node (a line without class) when
    nothing was thrown. *)
Definition renderAnalysis (h : host) (active_name : string) (result : value)
    (ui : UIState) : error + UIState :=
  let ui := clearConsole ui in
  match renderAnalysis_out h active_name result with
  | inl e => inl e
  | inr out =>
      inr (mkUI (status ui) [mkLine "" (join LF out)] (preview ui))
  end.

(** [analyze()]; a failure inside [renderAnalysis] comes after the console
    was emptied. *)
Definition analyze (h : host) (a : App) (ui : UIState) (n : nat)
  : UIState * nat :=
  let ui := setStatus "解析中…" false ui in
  match postJSON h "analyze" (buildSourcePayload false a) n with
  | (inl e, n') => (setStatus ("解析失敗: " ++ err_message e) true ui, n')
  | (inr json, n') =>
      match renderAnalysis h (active (state a)) json ui with
      | inl e =>
          (setStatus ("解析失敗: " ++ err_message e) true (clearConsole ui), n')
      | inr ui => (setStatus "解析完了" false ui, n')
      end
  end.

(** [json.newString || json.newStringFormatted || json.source || source] *)
Definition formatted_of (json : value) (source : string) : value :=
  or_else (or_else (or_else (field json "newString")
                            (field json "newStringFormatted"))
                   (field json "source"))
          (VStr source).

(** [formatCurrentFile()]. The entry is assigned before the editor; a
    value that cannot be converted to text makes the editor assignment
    throw, after the entry was set and before [persist]. *)
Definition formatCurrentFile (h : host) (a : App) (ed : Editor) (ui : UIState)
    (n : nat) : App * Editor * UIState * nat :=
  let ui := setStatus "整形中…" false ui in
  let source := editor_value ed in
  match postJSON h "format" (VObj [("source", VStr source)]) n with
  | (inl e, n') =>
      (a, ed, setStatus ("整形失敗: " ++ err_message e) true ui, n')
  | (inr json, n') =>
      if nullish json
      then (a, ed,
            setStatus ("整形失敗: "
                       ++ err_message (null_read_TypeError h "newString"))
                      true ui, n')
      else
        let formatted := formatted_of json source in
        let a := with_files a
                   (assign (files (state a)) (active (state a)) formatted) in
        match toString h formatted with
        | inl e =>
            (a, ed, setStatus ("整形失敗: " ++ err_message e) true ui, n')
        | inr text =>
            let ed := mkEditor (normalize_newlines text) (line_nums ed)
                               (filename_title ed) in
            let ed := refreshLineNumbers ed in
            (persist a, ed, setStatus "整形完了" false ui, n')
        end
  end.

(** The [message] listener on [e.data]; an exception in [appendConsole]
    (a level or text that cannot be converted) leaves the console as it
    was. *)
Definition onMessage (h : host) (data : value) (ui : UIState) : UIState :=
  if negb (truthy data) then ui
  else
    match field data "type" with
    | VStr t =>
        if t =? "console" then
          match toString h (or_else (field data "level") (VStr "log")),
                toString h (field data "text") with
          | inr level, inr text => appendConsole level text ui
          | _, _ => ui
          end
        else ui
    | _ => ui
    end.


(** The buttons of the file list that carry the [active] class. *)
Definition highlighted (st : State) : list FileButton :=
  filter (fun b => btn_class b =? "file-item active") (renderFileList st).

(** The page the default project starts on. *)
Definition default_app : App := mkApp default_state (Some default_state).

(** ** Properties of the object operations *)

Section ObjectLemmas.

Implicit Types (ps : props) (k : string) (v : value).

Lemma get_own_In ps k : In k (Object_keys ps) <-> get_own ps k <> None.
Proof.
  induction ps as [|[k' v'] r IH]; simpl.
  - split; [tauto | congruence].
  - destruct (String.eqb_spec k' k) as [->|Hne].
    + split; [congruence | auto].
    + rewrite <- IH. split; [intros [H|H]; [congruence | exact H] | auto].
Qed.

Lemma has_own_In ps k : has_own ps k = true <-> In k (Object_keys ps).
Proof.
  unfold has_own. rewrite get_own_In.
  destruct (get_own ps k); split; congruence.
Qed.

Lemma keys_replace ps k v : Object_keys (replace ps k v) = Object_keys ps.
Proof.
  induction ps as [|[k' v'] r IH]; simpl; [reflexivity|].
  destruct (k' =? k); simpl; [reflexivity | now rewrite IH].
Qed.

Lemma In_keys_place ps k v k0 :
  In k0 (Object_keys (place ps k v)) <-> k0 = k \/ In k0 (Object_keys ps).
Proof.
  induction ps as [|[k' v'] r IH]; simpl.
  - intuition.
  - destruct (array_index k), (array_index k'); try destruct (_ <? _)%N;
      simpl; rewrite ?IH; intuition.
Qed.

Lemma NoDup_keys_place ps k v :
  ~ In k (Object_keys ps) -> NoDup (Object_keys ps) ->
  NoDup (Object_keys (place ps k v)).
Proof.
  induction ps as [|[k' v'] r IH]; simpl; intros Hn Hd.
  - constructor; [simpl; tauto | constructor].
  - assert (Hk : NoDup (k :: k' :: Object_keys r))
      by (constructor; [exact Hn | exact Hd]).
    assert (Hr : NoDup (k' :: Object_keys (place r k v))).
    { inversion Hd; subst. constructor.
      - rewrite In_keys_place. intros [->|H]; [apply Hn; now left | auto].
      - apply IH; [intro; apply Hn; now right | assumption]. }
    destruct (array_index k), (array_index k'); try destruct (_ <? _)%N;
      simpl; assumption.
Qed.

Lemma In_keys_set ps k v k0 :
  In k0 (Object_keys (set_prop ps k v)) <-> k0 = k \/ In k0 (Object_keys ps).
Proof.
  unfold set_prop. destruct (has_own ps k) eqn:E.
  - rewrite keys_replace. apply has_own_In in E.
    split; [auto | intros [->|H]; assumption].
  - apply In_keys_place.
Qed.

Lemma is_object_set ps k v : is_object ps -> is_object (set_prop ps k v).
Proof.
  unfold is_object, set_prop. intros Hd. destruct (has_own ps k) eqn:E.
  - now rewrite keys_replace.
  - apply NoDup_keys_place; [|exact Hd].
    rewrite <- has_own_In. congruence.
Qed.

Lemma In_keys_delete ps k k0 :
  In k0 (Object_keys (delete_prop ps k)) <->
  In k0 (Object_keys ps) /\ k0 <> k.
Proof.
  unfold delete_prop, Object_keys.
  induction ps as [|[k' v'] r IH]; simpl; [tauto|].
  destruct (String.eqb_spec k' k) as [->|Hne]; simpl; rewrite IH.
  - intuition congruence.
  - intuition congruence.
Qed.

Lemma is_object_delete ps k : is_object ps -> is_object (delete_prop ps k).
Proof.
  unfold is_object, delete_prop, Object_keys.
  induction ps as [|[k' v'] r IH]; simpl; intros Hd; [constructor|].
  inversion Hd as [|? ? Hn Hd']; subst.
  destruct (k' =? k); simpl; [auto|].
  constructor; [|auto].
  intro H. apply Hn. apply (In_keys_delete r k k'). exact H.
Qed.

(** Deleting one key of an object with at least two leaves one. *)
Lemma delete_leaves_one ps k :
  is_object ps -> ps <> [] -> length (Object_keys ps) <> 1%nat ->
  delete_prop ps k <> [].
Proof.
  unfold is_object. intros Hd Hne Hlen.
  destruct ps as [|[k1 v1] [|[k2 v2] r]]; simpl in *; try congruence.
  inversion Hd as [|? ? Hn _]; subst.
  unfold delete_prop; simpl.
  destruct (String.eqb_spec k1 k) as [->|H1]; simpl; [|discriminate].
  destruct (String.eqb_spec k2 k) as [->|H2]; simpl; [|discriminate].
  exfalso. apply Hn. now left.
Qed.

Lemma get_own_place_same ps k v :
  ~ In k (Object_keys ps) -> get_own (place ps k v) k = Some v.
Proof.
  induction ps as [|[k' v'] r IH]; simpl; intros Hn.
  - now rewrite String.eqb_refl.
  - assert (Hk : (k' =? k) = false)
      by (apply String.eqb_neq; intros ->; apply Hn; now left).
    assert (Hr : get_own (place r k v) k = Some v)
      by (apply IH; intro; apply Hn; now right).
    destruct (array_index k), (array_index k'); try destruct (_ <? _)%N;
      simpl; rewrite ?String.eqb_refl, ?Hk; auto.
Qed.

Lemma get_own_place_other ps k v k0 :
  k0 <> k -> get_own (place ps k v) k0 = get_own ps k0.
Proof.
  intros Hne. apply String.eqb_neq in Hne. rewrite String.eqb_sym in Hne.
  induction ps as [|[k' v'] r IH]; simpl.
  - now rewrite Hne.
  - destruct (array_index k), (array_index k'); try destruct (_ <? _)%N;
      simpl; rewrite ?Hne, ?IH; reflexivity.
Qed.

Lemma get_own_replace_same ps k v :
  In k (Object_keys ps) -> get_own (replace ps k v) k = Some v.
Proof.
  induction ps as [|[k' v'] r IH]; simpl; [tauto|].
  intros Hin. destruct (String.eqb_spec k' k) as [->|Hne]; simpl.
  - now rewrite String.eqb_refl.
  - apply String.eqb_neq in Hne as Hb. rewrite Hb.
    apply IH. destruct Hin; [contradiction | assumption].
Qed.

Lemma get_own_replace_other ps k v k0 :
  k0 <> k -> get_own (replace ps k v) k0 = get_own ps k0.
Proof.
  intros Hne. induction ps as [|[k' v'] r IH]; simpl; [reflexivity|].
  destruct (String.eqb_spec k' k) as [->|Hk]; simpl.
  - apply String.eqb_neq in Hne. rewrite String.eqb_sym in Hne.
    now rewrite Hne.
  - now rewrite IH.
Qed.

Lemma get_own_set_same ps k v : get_own (set_prop ps k v) k = Some v.
Proof.
  unfold set_prop. destruct (has_own ps k) eqn:E.
  - apply get_own_replace_same. now apply has_own_In.
  - apply get_own_place_same. rewrite <- has_own_In. congruence.
Qed.

Lemma get_own_set_other ps k v k0 :
  k0 <> k -> get_own (set_prop ps k v) k0 = get_own ps k0.
Proof.
  unfold set_prop. intros Hne. destruct (has_own ps k).
  - now apply get_own_replace_other.
  - now apply get_own_place_other.
Qed.

Lemma get_own_delete_same ps k : get_own (delete_prop ps k) k = None.
Proof.
  destruct (get_own (delete_prop ps k) k) eqn:E; [|reflexivity].
  assert (H : In k (Object_keys (delete_prop ps k)))
    by (apply get_own_In; congruence).
  apply In_keys_delete in H. destruct H as [_ H]. congruence.
Qed.

Lemma get_own_delete_other ps k k0 :
  k0 <> k -> get_own (delete_prop ps k) k0 = get_own ps k0.
Proof.
  unfold delete_prop. intros Hne.
  induction ps as [|[k' v'] r IH]; simpl; [reflexivity|].
  destruct (String.eqb_spec k' k) as [->|Hk]; simpl.
  - apply String.eqb_neq in Hne. rewrite String.eqb_sym in Hne.
    now rewrite Hne.
  - now rewrite IH.
Qed.

(** A name ending in [.dart] is neither empty nor inherited. *)
Lemma dart_not_empty k : endsWith k ".dart" = true -> k <> "".
Proof. intros H ->. discriminate H. Qed.

Lemma dart_not_inherited k : endsWith k ".dart" = true -> inherited k = false.
Proof.
  intros H. destruct (inherited k) eqn:E; [|reflexivity].
  unfold inherited, object_prototype_names in E. simpl in E.
  repeat match type of E with
         | (?a =? ?b) || _ = true =>
             destruct (String.eqb_spec a b) as [->|_];
             [discriminate H | simpl in E]
         end.
  discriminate E.
Qed.

(** Reading a [.dart] name sees own properties only. *)
Lemma get_dart ps k :
  endsWith k ".dart" = true ->
  get ps k = match get_own ps k with Some v => v | None => VUndef end.
Proof.
  intros H. unfold get. now rewrite (dart_not_inherited k H).
Qed.

Lemma truthy_get_dart_In ps k :
  endsWith k ".dart" = true -> truthy (get ps k) = true ->
  In k (Object_keys ps).
Proof.
  intros H T. rewrite (get_dart ps k H) in T. apply get_own_In.
  destruct (get_own ps k); [discriminate | discriminate T].
Qed.

End ObjectLemmas.

(** ** The active pointer under file operations *)

Section ActiveInvariant.

Lemma setActive_files n a : files (state (setActive n a)) = files (state a).
Proof. unfold setActive. now destruct (negb _). Qed.

Lemma setActive_active n a :
  active (state (setActive n a)) =
  if truthy (get (files (state a)) n) then n else active (state a).
Proof. unfold setActive. now destruct (truthy _). Qed.

Lemma setActive_same a :
  state (setActive (active (state a)) a) = state a.
Proof.
  unfold setActive. destruct (negb _); [reflexivity|].
  simpl. now destruct (state a).
Qed.

Lemma well_named_In f k :
  well_named f -> In k (Object_keys f) -> endsWith k ".dart" = true.
Proof. unfold well_named. rewrite Forall_forall. auto. Qed.

Lemma well_named_set f k v :
  well_named f -> endsWith k ".dart" = true -> well_named (set_prop f k v).
Proof.
  unfold well_named. rewrite !Forall_forall. intros Hf Hk x Hx.
  apply In_keys_set in Hx. destruct Hx as [->|Hx]; auto.
Qed.

Lemma well_named_delete f k : well_named f -> well_named (delete_prop f k).
Proof.
  unfold well_named. rewrite !Forall_forall. intros Hf x Hx.
  apply In_keys_delete in Hx. apply Hf, Hx.
Qed.

Lemma keys_nonempty_In (f : props) k : In k (Object_keys f) -> f <> [].
Proof. intros H ->. exact H. Qed.

Lemma inv_intro a :
  is_object (files (state a)) -> well_named (files (state a)) ->
  In (active (state a)) (Object_keys (files (state a))) -> inv a.
Proof.
  intros Ho Hw Hin. split; [|exact Hw].
  split; [exact Ho|]. split; [|exact Hin]. eapply keys_nonempty_In, Hin.
Qed.

Lemma inv_setActive_same a : inv a -> inv (setActive (active (state a)) a).
Proof. unfold inv. now rewrite setActive_same. Qed.

Lemma inv_promptNewFile answer a : inv a -> inv (fst (promptNewFile answer a)).
Proof.
  intros Hi. pose proof Hi as [[Ho [Hne Hin]] Hw].
  unfold promptNewFile. destruct answer as [name|]; [|exact Hi].
  destruct (name =? ""); [exact Hi|].
  destruct (endsWith name ".dart") eqn:Hext; simpl; [|exact Hi].
  destruct (truthy (get (files (state a)) name)); [exact Hi|].
  simpl. apply inv_intro.
  - rewrite setActive_files. simpl. now apply is_object_set.
  - rewrite setActive_files. simpl. now apply well_named_set.
  - rewrite setActive_files, setActive_active. simpl.
    destruct (truthy _); apply In_keys_set; auto.
Qed.

Lemma inv_promptRename oldName answer a :
  inv a -> inv (fst (promptRename oldName answer a)).
Proof.
  intros Hi. pose proof Hi as [[Ho [Hne Hin]] Hw].
  unfold promptRename. destruct answer as [name|]; [|exact Hi].
  destruct (name =? "") eqn:E0; simpl orb; cbv iota; [exact Hi|].
  destruct (String.eqb_spec name oldName) as [->|Hno]; [exact Hi|].
  destruct (endsWith name ".dart") eqn:Hext; simpl negb; cbv iota;
    [|exact Hi].
  destruct (truthy (get (files (state a)) name)); [exact Hi|].
  cbv zeta. unfold fst. apply inv_setActive_same.
  set (f' := delete_prop (set_prop (files (state a)) name
                            (get (files (state a)) oldName)) oldName).
  assert (Hname : In name (Object_keys f')).
  { apply In_keys_delete. split; [apply In_keys_set; auto | exact Hno]. }
  assert (Ho' : is_object f') by now apply is_object_delete, is_object_set.
  assert (Hw' : well_named f') by now apply well_named_delete, well_named_set.
  simpl. fold f'.
  destruct (String.eqb_spec (active (state a)) oldName) as [Hao|Hao];
    apply inv_intro; simpl; fold f'; auto.
  apply In_keys_delete. split; [apply In_keys_set; auto | exact Hao].
Qed.

Lemma inv_promptDelete name confirmed a :
  inv a -> inv (fst (promptDelete name confirmed a)).
Proof.
  intros Hi. pose proof Hi as [[Ho [Hne Hin]] Hw].
  unfold promptDelete.
  destruct (Nat.eqb_spec (length (Object_keys (files (state a)))) 1)
    as [|Hlen]; [exact Hi|].
  destruct confirmed; simpl negb; cbv iota zeta; [|exact Hi].
  unfold fst. apply inv_setActive_same.
  set (f' := delete_prop (files (state a)) name).
  assert (Ho' : is_object f') by now apply is_object_delete.
  assert (Hw' : well_named f') by now apply well_named_delete.
  assert (Hne' : f' <> []) by now apply delete_leaves_one.
  unfold ensureActiveExists; simpl. fold f'.
  destruct (truthy (get f' (active (state a)))) eqn:T; simpl;
    apply inv_intro; simpl; fold f'; auto.
  - apply truthy_get_dart_In; [|exact T]. exact (well_named_In _ _ Hw Hin).
  - unfold first_key_or_default. destruct f' as [|[k v] r]; [congruence|].
    simpl. assert (Hk : endsWith k ".dart" = true)
      by (eapply well_named_In; [exact Hw' | now left]).
    apply dart_not_empty in Hk. apply String.eqb_neq in Hk. rewrite Hk.
    now left.
Qed.

Lemma inv_step o a : inv a -> inv (step o a).
Proof.
  destruct o; simpl;
    [apply inv_promptNewFile | apply inv_promptRename | apply inv_promptDelete].
Qed.

Lemma inv_run os : forall a, inv a -> inv (run os a).
Proof.
  unfold run. induction os as [|o os IH]; simpl; intros a Hi; [exact Hi|].
  apply IH, inv_step, Hi.
Qed.

End ActiveInvariant.

(** ** File names and the key order *)

Section NameLemmas.

Lemma substring_split (s : string) : forall i,
  (i <= String.length s)%nat ->
  s = substring 0 i s ++ substring i (String.length s - i) s.
Proof.
  induction s as [|c s IH]; intros [|i] Hi; simpl in *.
  - reflexivity.
  - lia.
  - f_equal. clear. induction s as [|d s IH]; simpl; [reflexivity|].
    now rewrite <- IH.
  - f_equal. apply IH. lia.
Qed.

(** [endsWith] is the suffix relation. *)
Lemma endsWith_suffix (s t : string) :
  endsWith s t = true -> exists p, s = p ++ t.
Proof.
  unfold endsWith. destruct (Nat.leb_spec (String.length t) (String.length s))
    as [Hle|]; [|discriminate].
  intros H. apply String.eqb_eq in H.
  exists (substring 0 (String.length s - String.length t) s).
  pose proof (substring_split s (String.length s - String.length t)) as E.
  replace (String.length s - (String.length s - String.length t))%nat
    with (String.length t) in E by lia.
  rewrite H in E. apply E. lia.
Qed.

Lemma digits_dart (p : string) : forall acc, digits (p ++ ".dart") acc = None.
Proof.
  induction p as [|c p IH]; intros acc; simpl; [reflexivity|].
  destruct (digit c); [apply IH | reflexivity].
Qed.

(** A name ending in [.dart] is not an array index. *)
Lemma dart_not_index (k : string) :
  endsWith k ".dart" = true -> array_index k = None.
Proof.
  intros H. destruct (endsWith_suffix _ _ H) as [p ->].
  unfold array_index. destruct p as [|c p]; [reflexivity|].
  change (String c p ++ ".dart") with (String c (p ++ ".dart")).
  cbv iota. destruct (c =? "0")%char.
  - destruct p; reflexivity.
  - change (String c (p ++ ".dart")) with (String c p ++ ".dart").
    now rewrite digits_dart.
Qed.

(** A new key that is not an array index goes last. *)
Lemma place_last (ps : props) (k : string) (v : value) :
  array_index k = None -> place ps k v = (ps ++ [(k, v)])%list.
Proof.
  intros H. induction ps as [|[k' v'] r IH]; simpl; [reflexivity|].
  rewrite H. now rewrite IH.
Qed.

Lemma set_prop_new (ps : props) (k : string) (v : value) :
  endsWith k ".dart" = true -> ~ In k (Object_keys ps) ->
  set_prop ps k v = (ps ++ [(k, v)])%list.
Proof.
  intros Hd Hn. unfold set_prop.
  destruct (has_own ps k) eqn:E.
  - apply has_own_In in E. contradiction.
  - apply place_last, dart_not_index, Hd.
Qed.


End NameLemmas.

(** ** The backend client *)

Section BackendLemmas.

Variable h : host.

Lemma post_once_counts base path payload n :
  snd (post_once h base path payload n) = S n.
Proof.
  unfold post_once. destruct (fetch h n _ payload) as [e|ok st tx [e|v]];
    [reflexivity | destruct ok; reflexivity ..].
Qed.

Lemma postJSON_loop_spec path payload :
  forall bases lastErr n,
    postJSON_loop h bases path payload lastErr n =
    let rs := attempts h bases path payload n in
    match first_success rs with
    | Some (i, v) => (inr v, n + S i)
    | None =>
        (inl (last_error rs
                (match lastErr with
                 | Some e => e
                 | None => new_Error h "All backends failed"
                 end)),
         n + List.length rs)
    end.
Proof.
  induction bases as [|base rest IH]; intros lastErr n; simpl.
  - unfold throw. now rewrite Nat.add_0_r.
  - pose proof (post_once_counts base path payload n) as Hc.
    destruct (post_once h base path payload n) as [[e|v] n']; simpl in *;
      subst n'.
    + rewrite IH. simpl.
      destruct (first_success (attempts h rest path payload (S n)))
        as [[i v]|].
      * f_equal. lia.
      * f_equal. lia.
    + f_equal. lia.
Qed.

(** [first_success] picks the first response: every earlier candidate
    failed. *)
Lemma first_success_first (rs : list (error + value)) :
  forall i v,
    first_success rs = Some (i, v) ->
    nth_error rs i = Some (inr v) /\
    forall j, (j < i)%nat -> exists e, nth_error rs j = Some (inl e).
Proof.
  induction rs as [|[e|w] r IH]; intros i v H; simpl in H.
  - discriminate.
  - destruct (first_success r) as [[i' v']|]; [|discriminate].
    injection H as <- <-. destruct (IH i' v' eq_refl) as [Hn Hlt].
    split; [exact Hn|]. intros [|j] Hj; simpl; [eauto | apply Hlt; lia].
  - injection H as <- <-. split; [reflexivity | intros j Hj; lia].
Qed.

Lemma first_success_none (rs : list (error + value)) :
  first_success rs = None -> forall r, In r rs -> exists e, r = inl e.
Proof.
  induction rs as [|[e|w] r IH]; simpl; intros H x Hx.
  - contradiction.
  - destruct (first_success r) as [[i v]|]; [discriminate|].
    destruct Hx as [<-|Hx]; eauto.
  - discriminate.
Qed.

(** [last_error] is the error of the last candidate when that one failed. *)
Lemma last_error_last (rs : list (error + value)) (e d : error) :
  last_error (rs ++ [inl e]) d = e.
Proof.
  revert d. induction rs as [|[e'|w] r IH]; intros d; simpl; auto.
Qed.

End BackendLemmas.

(** ** The source payload *)

Section PayloadLemmas.

Lemma read_alloc (hp : heap) (ps : props) :
  read (fst (alloc hp ps)) (snd (alloc hp ps)) = ps.
Proof.
  unfold read, alloc; simpl. rewrite app_nth2, Nat.sub_diag; auto.
Qed.

Lemma read_write_same (hp : heap) (l : loc) (ps : props) :
  (l < List.length hp)%nat -> read (write hp l ps) l = ps.
Proof.
  unfold read. revert l. induction hp as [|o r IH]; intros [|l] Hl;
    simpl in *; try lia; auto. apply IH. lia.
Qed.

Lemma write_length (hp : heap) (l : loc) (ps : props) :
  List.length (write hp l ps) = List.length hp.
Proof.
  revert l. induction hp as [|o r IH]; intros [|l]; simpl; auto.
Qed.

Lemma firstn_write_above (hp : heap) (ps : props) :
  forall l k, (k <= l)%nat -> firstn k (write hp l ps) = firstn k hp.
Proof.
  induction hp as [|o r IH]; intros [|l] [|k] Hk; simpl; try lia; auto.
  f_equal. apply IH. lia.
Qed.

Lemma buildSourcePayload_store_eq (singleOnly : bool) (hp : heap) (l : loc) :
  let r := buildSourcePayload_store singleOnly hp l in
  read (fst r) (List.length hp) = payload_files (read hp l) /\
  List.length (fst r) = S (List.length hp) /\
  firstn (List.length hp) (fst r) = hp /\
  snd r = mkPayload (if singleOnly then None else Some (List.length hp))
            (get (payload_files (read hp l)) "main.dart").
Proof.
  unfold buildSourcePayload_store.
  pose proof (read_alloc hp (spread (read hp l))) as Hr.
  unfold alloc in *. simpl fst in Hr. simpl snd in Hr. cbv beta iota zeta.
  rewrite Hr. unfold spread in *. unfold payload_files.
  assert (Hlen : (List.length hp < List.length (hp ++ [read hp l]))%nat)
    by (rewrite length_app; simpl; lia).
  assert (Hpre : firstn (List.length hp) (hp ++ [read hp l]) = hp)
    by (rewrite firstn_app, Nat.sub_diag, firstn_all; simpl;
        apply app_nil_r).
  destruct (negb (truthy (get (read hp l) "main.dart"))); cbv iota.
  - unfold fst, snd. rewrite (read_write_same _ _ _ Hlen).
    rewrite write_length, length_app.
    rewrite (firstn_write_above _ _ _ _ (Nat.le_refl _)).
    simpl. repeat split; try lia; auto. now destruct singleOnly.
  - unfold fst, snd. rewrite Hr, length_app.
    simpl. repeat split; try lia; auto. now destruct singleOnly.
Qed.

Lemma buildSourcePayload_eq (singleOnly : bool) (a : App) :
  buildSourcePayload singleOnly a =
  let f := payload_files (files (state a)) in
  if singleOnly then VObj [("source", get f "main.dart")]
  else VObj [("sources", VObj f); ("source", get f "main.dart")].
Proof.
  unfold buildSourcePayload.
  pose proof (buildSourcePayload_store_eq singleOnly [files (state a)] 0)
    as (Hr & _ & _ & Hp).
  destruct (buildSourcePayload_store singleOnly [files (state a)] 0)
    as [hp p]. simpl in *. subst p. unfold payload_value. cbv zeta.
  destruct singleOnly; simpl; [reflexivity|]. now rewrite Hr.
Qed.

End PayloadLemmas.

(** ** Import and export *)

Section ImportLemmas.





Lemma files_check_json (f : value) :
  is_json f = true ->
  truthy f && (typeof f =? "object") = object_value f.
Proof.
  destruct f as [ | |b|z|s|l|ps|n]; simpl; try reflexivity;
    try discriminate; intros _.
  - now rewrite andb_false_r.
  - now rewrite andb_false_r.
  - now rewrite andb_false_r.
Qed.

End ImportLemmas.

(** ** String conversion *)

Section ConversionLemmas.

Variable h : host.

(** [unconvertible] tells when ToString throws, and what. *)
Lemma toString_unconvertible :
  forall v,
    (unconvertible v = true -> toString h v = inl (to_primitive_TypeError h)) /\
    (unconvertible v = false -> exists s, toString h v = inr s).
Proof.
  fix IH 1. intros [ | |b|z|s|l|ps|n]; simpl;
    try (split; [discriminate | eauto]).
  - induction l as [|x r IHr]; simpl.
    + split; [discriminate | eauto].
    + destruct (IH x) as [Hx1 Hx2]. destruct IHr as [Hr1 Hr2].
      destruct (unconvertible x) eqn:Ux; simpl.
      * split; [intros _ | discriminate].
        assert (Nx : nullish x = false) by (destruct x; try reflexivity; discriminate).
        rewrite Nx, (Hx1 eq_refl). reflexivity.
      * split; intros Hr.
        -- assert (E : exists sx, (if nullish x then inr EmptyString
                                   else toString h x) = inr sx)
             by (destruct (nullish x); [eauto | apply Hx2; reflexivity]).
           destruct E as [sx ->]. destruct r as [|y r']; [discriminate Hr|].
           now rewrite (Hr1 Hr).
        -- assert (E : exists sx, (if nullish x then inr EmptyString
                                   else toString h x) = inr sx)
             by (destruct (nullish x); [eauto | apply Hx2; reflexivity]).
           destruct E as [sx ->]. destruct r as [|y r']; [eauto|].
           destruct (Hr2 Hr) as [sr ->]. eauto.
  - destruct (has_own ps "toString"); split; try discriminate; eauto.
Qed.

End ConversionLemmas.

(** ** File operations: properties of the specification *)

Lemma valid_example_app : valid (state example_app).
Proof.
  unfold valid, is_object; simpl. repeat split.
  - repeat constructor. simpl. tauto.
  - discriminate.
  - now left.
Qed.

(** C1, as stated, fails: from the valid project
    [{files: {"": "x", "a.dart": "y"}, active: "a.dart"}], deleting
    ["a.dart"] repoints [active] to ["main.dart"], which is no key of
    [files], because [Object.keys(files)[0]] is the falsy empty name. *)
Lemma active_lost_next_to_unnamed_file :
  valid (state unnamed_file_app) /\
  state (run [OpDelete "a.dart" true] unnamed_file_app)
    = mkState [("", VStr "x")] "main.dart" /\
  ~ In (active (state (run [OpDelete "a.dart" true] unnamed_file_app)))
       (Object_keys (files (state (run [OpDelete "a.dart" true]
                                     unnamed_file_app)))).
Proof.
  split; [|split].
  - unfold valid, is_object; simpl. repeat split.
    + repeat constructor; simpl; intuition discriminate.
    + discriminate.
    + now right; left.
  - reflexivity.
  - simpl. intros [H|[]]. discriminate H.
Qed.

(** A name that every object inherits defeats the repair as well: after
    deleting the active file ["toString"], [state.files["toString"]] still
    reads truthy and [active] is left dangling. *)
Lemma active_lost_on_inherited_name :
  valid (state inherited_name_app) /\
  state (run [OpDelete "toString" true] inherited_name_app)
    = mkState [("a.dart", VStr "y")] "toString".
Proof.
  split; [|reflexivity].
  unfold valid, is_object; simpl. repeat split.
  - repeat constructor; simpl; intuition discriminate.
  - discriminate.
  - now left.
Qed.

(** C1 (amended): starting from a valid project (an object with at least
    one file whose [active] is one of its keys) in which every file name
    ends in [.dart], after any sequence of promptNewFile, promptRename and
    promptDelete, whatever the user answers, the project is still valid: in
    particular [active] is a key of [files]. *)
Theorem active_stays_a_key (a : App) (os : list op) :
  valid (state a) -> well_named (files (state a)) ->
  valid (state (run os a)) /\
  In (active (state (run os a))) (Object_keys (files (state (run os a)))).
Proof.
  intros Hv Hw. destruct (inv_run os a (conj Hv Hw)) as [Hv' _].
  split; [exact Hv' | apply Hv'].
Qed.

Lemma active_stays_a_key_witness :
  In (active (state (run [OpAdd (Some "utils.dart"); OpDelete "main.dart" true;
                          OpRename "utils.dart" (Some "lib.dart")]
                       example_app)))
     (Object_keys (files (state (run [OpAdd (Some "utils.dart");
                                      OpDelete "main.dart" true;
                                      OpRename "utils.dart" (Some "lib.dart")]
                                   example_app)))).
Proof.
  apply (active_stays_a_key example_app).
  - unfold valid, is_object; simpl. repeat split.
    + repeat constructor. simpl. tauto.
    + discriminate.
    + now left.
  - repeat constructor.
Defined.

(** C2: when [files] has exactly one key, promptDelete on any name is
    refused with the last-file alert and the whole page (files, active
    pointer, stored snapshot) is unchanged, whatever the user would
    confirm. *)
Theorem delete_sole_file_refused (a : App) (name : string) (confirmed : bool) :
  length (Object_keys (files (state a))) = 1%nat ->
  promptDelete name confirmed a = (a, Some MSG_LAST_FILE).
Proof.
  intros H. unfold promptDelete. now rewrite H.
Qed.

Lemma delete_sole_file_refused_witness :
  promptDelete "main.dart" true example_app = (example_app, Some MSG_LAST_FILE).
Proof.
  apply (delete_sole_file_refused example_app "main.dart" true).
  reflexivity.
Defined.

(** What promptRename does refuse: a new name without the extension, or
    one whose entry reads as a truthy value. *)
Lemma rename_refused (a : App) (oldName name : string) :
  endsWith name ".dart" = false \/ truthy (get (files (state a)) name) = true ->
  fst (promptRename oldName (Some name) a) = a.
Proof.
  intros H. unfold promptRename.
  destruct ((name =? "") || (name =? oldName)); [reflexivity|].
  destruct (endsWith name ".dart"); simpl.
  - destruct H as [H|H]; [discriminate | now rewrite H].
  - reflexivity.
Qed.

(** C3 at the failing input: in
    [{files: {"a.dart": "x", "b.dart": ""}, active: "a.dart"}] the name
    ["b.dart"] is a key of [files], yet renaming ["a.dart"] to ["b.dart"]
    is not refused: the entry of ["b.dart"] is overwritten, ["a.dart"] is
    removed and the result is persisted. *)
Theorem rename_onto_empty_file_overwrites :
  In "b.dart" (Object_keys (files (state empty_file_app))) /\
  promptRename "a.dart" (Some "b.dart") empty_file_app =
    (mkApp (mkState [("b.dart", VStr "x")] "b.dart")
           (Some (mkState [("b.dart", VStr "x")] "b.dart")), None).
Proof.
  split; [simpl; auto | reflexivity].
Qed.

(** The project of C3's failing input arises in use: add ["b.dart"] to
    [{"a.dart": "x"}] and clear the editor. *)
Lemma empty_file_app_reachable :
  state (with_active
           (editorInput ""
              (fst (promptNewFile (Some "b.dart")
                      (mkApp (mkState [("a.dart", VStr "x")] "a.dart") None))))
           "a.dart")
  = state empty_file_app.
Proof. reflexivity. Qed.

(** C4, as stated, fails: the seed content of ["utils.dart"] is not
    ["// utils.dart"] but that line followed by a newline. *)
Lemma seed_content_ends_with_newline :
  endsWith "utils.dart" ".dart" = true /\
  ~ In "utils.dart" (Object_keys (files (state example_app))) /\
  get (files (state (fst (promptNewFile (Some "utils.dart") example_app))))
      "utils.dart" <> VStr "// utils.dart" /\
  get (files (state (fst (promptNewFile (Some "utils.dart") example_app))))
      "utils.dart" = VStr ("// utils.dart" ++ LF).
Proof.
  repeat split.
  - simpl. intros [H|[]]. discriminate H.
  - discriminate.
Qed.

(** C4 (amended): promptNewFile with a name that ends in [.dart] and is not
    an existing key raises no alert, appends a new entry whose content is
    exactly ["// <name>"] followed by a newline, leaves the other entries
    as they are, sets [active] to that name and persists the result. *)
Theorem addFile_inserts (a : App) (name : string) :
  endsWith name ".dart" = true ->
  ~ In name (Object_keys (files (state a))) ->
  promptNewFile (Some name) a =
    (let st' := mkState (files (state a) ++ [(name, VStr ("// " ++ name ++ LF))])%list
                        name in
     mkApp st' (Some st'), None).
Proof.
  intros Hd Hn. unfold promptNewFile.
  apply dart_not_empty in Hd as Hne. apply String.eqb_neq in Hne.
  rewrite Hne, Hd. simpl negb. cbv iota.
  rewrite (get_dart _ _ Hd).
  destruct (get_own (files (state a)) name) eqn:E.
  { exfalso. apply Hn, get_own_In. congruence. }
  simpl truthy. cbv iota zeta.
  rewrite (set_prop_new _ _ _ Hd Hn).
  set (seed := VStr ("// " ++ name ++ LF)).
  assert (G : truthy (get (files (state a) ++ [(name, seed)])%list name)
              = true).
  { rewrite (get_dart _ _ Hd).
    rewrite <- (set_prop_new _ _ seed Hd Hn), get_own_set_same.
    reflexivity. }
  unfold setActive, persist, with_files, with_active, state, files, active
    in *.
  destruct a as [[f act] sto]. rewrite G. reflexivity.
Qed.

(** The spec's example: adding ["utils.dart"] to
    [{files: {"main.dart": "void main(){}"}, active: "main.dart"}] yields
    exactly the keys ["main.dart"] and ["utils.dart"], with ["utils.dart"]
    active. *)
Lemma addFile_inserts_witness :
  Object_keys (files (state (fst (promptNewFile (Some "utils.dart")
                                    example_app))))
    = ["main.dart"; "utils.dart"] /\
  active (state (fst (promptNewFile (Some "utils.dart") example_app)))
    = "utils.dart".
Proof.
  rewrite (addFile_inserts example_app "utils.dart").
  - split; reflexivity.
  - reflexivity.
  - simpl. intros [H|[]]. discriminate H.
Defined.

(** ** Backend client: properties of the specification *)

Lemma first_truthy_probe (json : value) :
  first_truthy (compiled_fields json) =
  or_else (or_else (or_else (field json "result") (field json "compiledJS"))
                   (field json "compiledJavascript"))
          (field json "js").
Proof.
  unfold compiled_fields, first_truthy, or_else.
  destruct (truthy (field json "result")) eqn:E1;
    destruct (truthy (field json "compiledJS")) eqn:E2;
    destruct (truthy (field json "compiledJavascript")) eqn:E3;
    repeat first [rewrite E1 | rewrite E2 | rewrite E3 | progress cbv iota];
    reflexivity.
Qed.

Lemma probe_compiled_first_truthy (h : host) (json : value) (n : nat) :
  nullish json = false ->
  probe_compiled h json n = (inr (first_truthy (compiled_fields json)), n).
Proof.
  intros H. unfold probe_compiled. rewrite H, first_truthy_probe. reflexivity.
Qed.

Lemma postJSON_meets_spec (h : host) (path : string) (payload : value)
    (n : nat) :
  postJSON h path payload n = postJSON_spec h path payload n.
Proof.
  unfold postJSON, postJSON_spec. now rewrite postJSON_loop_spec.
Qed.

(** C5, as stated, fails: the request to the first endpoint completes
    without a transport error and with an ok status, but its body is no
    JSON; postJSON does not return a response of that endpoint, it goes
    on to the second and returns that one's. When every endpoint answers
    so, an error is surfaced although every request completed without a
    transport error or a non-ok status. *)
Lemma unreadable_body_is_a_failed_attempt :
  fetch host_bad_body 0
    "https://v1.api.dartpad.dev/api/dartservices/v2/compile"
    (buildSourcePayload false example_app)
    = FetchResponse true 200 "OK" (BodyError not_json) /\
  postJSON host_bad_body "compile" (buildSourcePayload false example_app) 0
    = (inr (VObj [("result", VStr "main();")]), 2%nat) /\
  postJSON host_no_json "compile" (buildSourcePayload false example_app) 0
    = (inl not_json, 2%nat).
Proof. repeat split. Qed.

(** C5 (amended): postJSON tries the two candidate endpoints one after
    the other in the order of [BACKENDS], posting the payload to
    [base/path]. It returns the parsed response of the first endpoint
    whose attempt completes without a transport error (a rejected
    [fetch]), a non-ok HTTP status or a body that does not parse
    ([res.json()] rejecting), and surfaces no error then; the second
    endpoint is asked only after the first failed. When both fail it
    throws the error of the second, the last tried: the rejection of
    [fetch], the error "status statusText" of a non-ok response, or the
    rejection of [res.json()]. *)
Theorem postJSON_first_success (h : host) (path : string) (payload : value)
    (n : nat) :
  postJSON h path payload n =
  match fetch h n ("https://v1.api.dartpad.dev/api/dartservices/v2"
                   ++ "/" ++ path) payload with
  | FetchResponse true _ _ (BodyJSON v) => (inr v, S n)
  | _ =>
      match fetch h (S n)
              ("https://dart-services.appspot.com/api/dartservices/v2"
               ++ "/" ++ path) payload with
      | FetchResponse true _ _ (BodyJSON v) => (inr v, S (S n))
      | FetchResponse true _ _ (BodyError e) => (inl e, S (S n))
      | FetchResponse false status statusText _ =>
          (inl (new_Error h (number_toString status ++ " " ++ statusText)),
           S (S n))
      | FetchRejected e => (inl e, S (S n))
      end
  end.
Proof.
  unfold postJSON, BACKENDS, postJSON_loop, post_once, throw.
  destruct (fetch h n _ payload) as [e1|[|] st1 tx1 [b1|v1]];
    cbn [negb]; cbv beta iota zeta; try reflexivity;
    destruct (fetch h (S n) _ payload) as [e2|[|] st2 tx2 [b2|v2]];
    cbn [negb]; cbv beta iota zeta; reflexivity.
Qed.

(** The spec's fallback scenario: the first endpoint answers 503, the
    second accepts; the second's response is returned. *)
Lemma postJSON_fallback_example :
  postJSON host_fallback "compile" (buildSourcePayload false example_app) 0
  = (inr (VObj [("result", VStr "main();")]), 2%nat).
Proof. reflexivity. Qed.

(** When every endpoint is down, the last endpoint's error comes out. *)
Lemma postJSON_all_down_example :
  postJSON host_down "compile" (buildSourcePayload false example_app) 0
  = (inl fetch_failed, 2%nat).
Proof. reflexivity. Qed.

(** The course of compileAndRun on a first compile response [json1] that
    is not [null] (to the payload carrying both [sources] and [source]):
    it takes the first truthy of the fields result, compiledJS,
    compiledJavascript, js, in that order, and runs it; when none is
    truthy it posts once more, with the payload that carries [source]
    only, and probes that response the same way; when that yields none
    either, it fails with "Compiled JavaScript not found in response" and
    the preview is left as it was. A script that cannot be converted to
    text is not run: the failure to convert is reported. *)
Lemma compileAndRun_probes_and_retries (h : host) (a : App) (ui : UIState)
    (n n1 : nat) (json1 : value) :
  postJSON h "compile" (buildSourcePayload false a) n = (inr json1, n1) ->
  nullish json1 = false ->
  Object_keys match buildSourcePayload false a with VObj p => p | _ => [] end
    = ["sources"; "source"] /\
  Object_keys match buildSourcePayload true a with VObj p => p | _ => [] end
    = ["source"] /\
  (truthy (first_truthy (compiled_fields json1)) = true ->
   compileAndRun h a ui n
     = (if unconvertible (first_truthy (compiled_fields json1))
        then failed (to_primitive_TypeError h) ui
        else ran (first_truthy (compiled_fields json1)) ui, n1))
  /\
  (truthy (first_truthy (compiled_fields json1)) = false ->
   forall (json2 : value) (n2 : nat),
     postJSON h "compile" (buildSourcePayload true a) n1 = (inr json2, n2) ->
     nullish json2 = false ->
     (truthy (first_truthy (compiled_fields json2)) = true ->
      compileAndRun h a ui n
        = (if unconvertible (first_truthy (compiled_fields json2))
           then failed (to_primitive_TypeError h) ui
           else ran (first_truthy (compiled_fields json2)) ui, n2)) /\
     (truthy (first_truthy (compiled_fields json2)) = false ->
      compileAndRun h a ui n
        = (failed (new_Error h "Compiled JavaScript not found in response") ui,
           n2) /\
      preview (fst (compileAndRun h a ui n)) = preview ui)).
Proof.
  intros H1 N1.
  split; [|split]; [ | |split].
  - now rewrite buildSourcePayload_eq.
  - now rewrite buildSourcePayload_eq.
  - intros T1. unfold compileAndRun, compile, bind.
    rewrite H1. cbv beta iota.
    rewrite (probe_compiled_first_truthy h json1 n1 N1). cbv beta iota.
    rewrite T1. unfold negb, ret. cbv beta iota. rewrite T1.
    unfold finish_compile.
    now destruct (unconvertible (first_truthy (compiled_fields json1))).
  - intros T1 json2 n2 H2 N2.
    assert (E : compile h a n =
                if truthy (first_truthy (compiled_fields json2))
                then (inr (first_truthy (compiled_fields json2)), n2)
                else (inl (new_Error h
                             "Compiled JavaScript not found in response"), n2)).
    { unfold compile, bind.
      rewrite H1. cbv beta iota.
      rewrite (probe_compiled_first_truthy h json1 n1 N1). cbv beta iota.
      rewrite T1. unfold negb at 1. cbv beta iota.
      rewrite H2. cbv beta iota.
      rewrite (probe_compiled_first_truthy h json2 n2 N2). cbv beta iota.
      now destruct (truthy (first_truthy (compiled_fields json2))). }
    unfold compileAndRun. rewrite E.
    split; intros T2; rewrite T2.
    + unfold finish_compile.
      now destruct (unconvertible (first_truthy (compiled_fields json2))).
    + split; reflexivity.
Qed.

Lemma compileAndRun_retry_example :
  compileAndRun host_empty example_app blank_ui 0
  = (failed (new_Error host_empty "Compiled JavaScript not found in response")
       blank_ui, 2%nat).
Proof.
  destruct (compileAndRun_probes_and_retries host_empty example_app blank_ui
              0 1 (VObj []) eq_refl eq_refl) as (_ & _ & _ & H).
  destruct (H eq_refl (VObj []) 2%nat eq_refl eq_refl) as [_ H2].
  exact (proj1 (H2 eq_refl)).
Qed.

(** A script that is an object hiding [toString] is found by the probe
    but cannot be put into the document: the compile is reported as
    failed and the preview is left as it was. *)
Lemma compileAndRun_odd_script_example :
  compileAndRun host_odd_script example_app blank_ui 0
  = (failed (to_primitive_TypeError host_odd_script) blank_ui, 1%nat).
Proof. reflexivity. Qed.

(** C7 at the failing input: the first compile request is answered 200
    with the body [null], which has none of the fields result, compiledJS,
    compiledJavascript, js. compileAndRun does not retry with the
    [source]-only payload, although that request would be answered with a
    script: reading [json.result] throws, the catch block reports the
    failure after that one request, and no script is run. *)
Theorem compileAndRun_null_body_no_retry :
  postJSON host_null_first "compile" (buildSourcePayload false example_app) 0
    = (inr VNull, 1%nat) /\
  postJSON host_null_first "compile" (buildSourcePayload true example_app) 1
    = (inr (VObj [("result", VStr "main();")]), 2%nat) /\
  compileAndRun host_null_first example_app blank_ui 0
    = (failed (null_read_TypeError host_null_first "result") blank_ui, 1%nat) /\
  preview (fst (compileAndRun host_null_first example_app blank_ui 0)) = None.
Proof. repeat split. Qed.

(** C8, as stated, fails: with every endpoint down, compileAndRun shows
    the failure with error styling, but no timeout is pending for it, and
    when the timer of an earlier status would fire the message stays;
    a status that is not an error is cleared. *)
Lemma error_status_is_not_timed :
  status (fst (compileAndRun host_down example_app blank_ui 0))
    = mkStatus "コンパイル失敗: Failed to fetch" "error" false /\
  status_text
    (status (statusTimerFires
               (fst (compileAndRun host_down example_app blank_ui 0))))
    = "コンパイル失敗: Failed to fetch" /\
  status_text (status (statusTimerFires (setStatus "完了" false blank_ui)))
    = "".
Proof. repeat split. Qed.

(** C8 (amended): an error status is displayed with error styling and is
    not timed: setStatus with isError leaves no timeout pending, so the
    message stays until the next status replaces it; and a compile that
    fails with [e] ends with the status "コンパイル失敗: " + e.message in
    error styling, one console line holding the error's stack (or its
    string form), and the preview untouched. *)
Theorem error_status_persists (h : host) (a : App) (ui : UIState)
    (n n' : nat) (e : error) (msg : string) :
  compile h a n = (inl e, n') ->
  status (setStatus msg true ui) = mkStatus msg "error" false /\
  statusTimerFires (setStatus msg true ui) = setStatus msg true ui /\
  compileAndRun h a ui n = (failed e ui, n') /\
  statusTimerFires (failed e ui) = failed e ui.
Proof.
  intros H. repeat split.
  unfold compileAndRun. rewrite H. reflexivity.
Qed.

Lemma error_status_persists_witness :
  compileAndRun host_down example_app blank_ui 0
    = (failed fetch_failed blank_ui, 2%nat).
Proof.
  apply (error_status_persists host_down example_app blank_ui 0 2
           fetch_failed "").
  reflexivity.
Defined.

(** The local-runtime variant surfaces its failures the same way, and
    appends the message once more. *)
Lemma local_failure_surfaced (h : host) (rt : runtime) (a : App)
    (ui : UIState) (e : error) :
  compile_local h rt a = inl e ->
  status (compileAndRun_local h rt a ui)
    = mkStatus ("コンパイル失敗: " ++ err_message e) "error" false /\
  In (mkLine "log error" ("[error] " ++ stack_or_string e))
     (console (compileAndRun_local h rt a ui)) /\
  preview (compileAndRun_local h rt a ui) = preview ui.
Proof.
  intros H. unfold compileAndRun_local. rewrite H. simpl.
  repeat split. now left.
Qed.

(** The local runtime fails when it is not loaded, for a [main.dart] that
    the encoder takes. *)
Lemma local_runtime_missing (h : host) (a : App) :
  truthy (get (files (state a)) "main.dart") = true ->
  unconvertible (get (files (state a)) "main.dart") = false ->
  compile_local h None a
    = inl (new_Error h "dart_sdk_new.js が読み込まれていません").
Proof. intros H Hs. unfold compile_local. now rewrite H, Hs. Qed.

(** C10: buildSourcePayload leaves every object that existed before the
    call, [state.files] among them, as it was: it works on a fresh copy,
    the only object it allocates or writes. With [singleOnly] unset the
    payload's [sources] is that copy and holds the key ["main.dart"]; with
    [singleOnly] set the payload has no [sources]. In both, [source] is the
    copy's ["main.dart"], which is never empty. *)
Theorem buildSourcePayload_frame (singleOnly : bool) (hp : heap)
    (st_files : loc) :
  firstn (List.length hp) (fst (buildSourcePayload_store singleOnly hp st_files))
    = hp /\
  List.length (fst (buildSourcePayload_store singleOnly hp st_files))
    = S (List.length hp) /\
  match sources (snd (buildSourcePayload_store singleOnly hp st_files)) with
  | Some s =>
      singleOnly = false /\ s = List.length hp /\
      In "main.dart"
         (Object_keys
            (read (fst (buildSourcePayload_store singleOnly hp st_files)) s))
  | None => singleOnly = true
  end /\
  source (snd (buildSourcePayload_store singleOnly hp st_files))
    = get (read (fst (buildSourcePayload_store singleOnly hp st_files))
             (List.length hp)) "main.dart" /\
  truthy (source (snd (buildSourcePayload_store singleOnly hp st_files)))
    = true.
Proof.
  destruct (buildSourcePayload_store_eq singleOnly hp st_files)
    as (Hr & Hl & Hf & Hp).
  assert (Hown : In "main.dart" (Object_keys (payload_files (read hp st_files)))
                 /\ truthy (get (payload_files (read hp st_files)) "main.dart")
                    = true).
  { unfold payload_files.
    destruct (truthy (get (read hp st_files) "main.dart")) eqn:T; simpl negb;
      cbv iota.
    - split; [|exact T]. now apply truthy_get_dart_In.
    - split; [apply In_keys_set; now left|].
      unfold get. now rewrite get_own_set_same. }
  destruct Hown as [Hin Ht].
  rewrite Hp, Hr. simpl sources. simpl source.
  repeat split; try assumption.
  destruct singleOnly; [reflexivity|].
  rewrite Hr. repeat split. exact Hin.
Qed.

(** ** Import / Export: properties of the specification *)

(** C9: importProject accepts a parsed document exactly when it is not
    [null] and its [files] is truthy with [typeof] "object" (for a JSON
    value: any object or array), and [state.files] becomes that value
    unchecked. So [{"files":{}}] replaces the project with an empty files
    mapping (and [active] "main.dart"), and a document whose [active] names
    no key of its [files] is accepted and persisted with that dangling
    pointer: after either import the project is not valid. *)
Theorem import_accepts_any_object (h : host) (a : App) :
  (forall doc : value,
     imported_files (importProject h (inr doc) a) =
     if negb (nullish doc) && truthy (field doc "files")
        && (typeof (field doc "files") =? "object")
     then Some (field doc "files") else None) /\
  (forall f : value,
     is_json f = true ->
     truthy f && (typeof f =? "object") = object_value f) /\
  importProject h (inr doc_no_files) a
    = Imported (mkApp (mkState [] "main.dart") (Some (mkState [] "main.dart")))
  /\
  ~ valid (mkState [] "main.dart") /\
  importProject h (inr doc_dangling) a
    = Imported (mkApp dangling_state (Some dangling_state)) /\
  ~ In (active dangling_state) (Object_keys (files dangling_state)) /\
  ~ valid dangling_state.
Proof.
  split; [|split; [|split; [|split; [|split; [|split]]]]].
  - intros doc. unfold importProject.
    destruct (nullish doc); [reflexivity|]. simpl negb at 1. cbv iota.
    destruct (truthy (field doc "files")); [|reflexivity].
    destruct (typeof (field doc "files") =? "object"); [|reflexivity].
    simpl. destruct (field doc "files") as [ | |b|z|s|l|ps|n]; try reflexivity.
    destruct (or_else (field doc "active") (VStr "main.dart"));
      try reflexivity.
    simpl. now rewrite setActive_files.
  - exact files_check_json.
  - reflexivity.
  - intros (_ & H & _). now apply H.
  - reflexivity.
  - simpl. intros [H|[]]. discriminate H.
  - intros (_ & _ & [H|[]]). discriminate H.
Qed.

(** An array passes as [files] too: it is truthy and an "object". *)
Lemma import_accepts_array (h : host) (a : App) :
  importProject h (inr (VObj [("files", VArr [])])) a
    = ImportedUntyped (VArr []) (VStr "main.dart").
Proof. reflexivity. Qed.

(** A document without [files], or [null], is rejected and the status is
    an error. *)
Lemma import_rejects_missing_files (h : host) (a : App) :
  importProject h (inr (VObj [("active", VStr "main.dart")])) a
    = ImportFailed (new_Error h "不正な形式").
Proof. reflexivity. Qed.


(** An empty [active] is read back as the default name. *)
Lemma roundtrip_defaults_empty_active (h : host) (a0 : App) :
  importProject h
    (inr (exportProject 0 (mkApp (mkState [("", VStr "x")] "") None))) a0
  = Imported (mkApp (mkState [("", VStr "x")] "main.dart")
                    (Some (mkState [("", VStr "x")] "main.dart"))).
Proof. reflexivity. Qed.



(** What the two conditions of C6 exclude: an entry left [undefined] is
    not written out, and an empty [active] is read back as the default
    name. *)
Lemma export_drops_undefined (h : host) (a0 : App) :
  importProject h
    (inr (exportProject 0 (mkApp (mkState [("a.dart", VStr "x");
                                           ("b.dart", VUndef)] "a.dart") None)))
    a0
  = Imported (mkApp (mkState [("a.dart", VStr "x")] "a.dart")
                    (Some (mkState [("a.dart", VStr "x")] "a.dart"))).
Proof. reflexivity. Qed.

(** ** More on the file operations *)

Section FileOperationFacts.

Lemma delete_prop_app (ps qs : props) (k : string) :
  delete_prop (ps ++ qs)%list k = (delete_prop ps k ++ delete_prop qs k)%list.
Proof. unfold delete_prop. apply filter_app. Qed.

Lemma delete_prop_absent (ps : props) (k : string) :
  ~ In k (Object_keys ps) -> delete_prop ps k = ps.
Proof.
  unfold delete_prop. induction ps as [|[k' v] r IH]; simpl; intros Hn;
    [reflexivity|].
  destruct (String.eqb_spec k' k) as [->|Hne]; simpl.
  - exfalso. apply Hn. now left.
  - f_equal. apply IH. intro. apply Hn. now right.
Qed.

Lemma get_delete_other (ps : props) (k k0 : string) :
  k0 <> k -> get (delete_prop ps k) k0 = get ps k0.
Proof. intros H. unfold get. now rewrite get_own_delete_other. Qed.



Lemma keys_step (o : op) (a : App) (k : string) :
  In k (Object_keys (files (state (step o a)))) ->
  In k (Object_keys (files (state a))) \/ endsWith k ".dart" = true.
Proof.
  destruct o as [answer|oldName answer|name confirmed]; simpl.
  - unfold promptNewFile. destruct answer as [name|]; [|auto].
    destruct (name =? ""); [auto|].
    destruct (endsWith name ".dart") eqn:Hd; simpl negb; cbv iota; [|auto].
    destruct (truthy _); [auto|].
    cbv zeta. unfold fst. rewrite setActive_files. simpl.
    intros H. apply In_keys_set in H. destruct H as [->|H]; auto.
  - unfold promptRename. destruct answer as [name|]; [|auto].
    destruct ((name =? "") || (name =? oldName)); [auto|].
    destruct (endsWith name ".dart") eqn:Hd; simpl negb; cbv iota; [|auto].
    destruct (truthy _); [auto|].
    cbv zeta. unfold fst. rewrite setActive_files.
    destruct (_ =? oldName); simpl; intros H; apply In_keys_delete in H;
      destruct H as [H _]; apply In_keys_set in H;
      destruct H as [->|H]; auto.
  - unfold promptDelete. destruct (_ =? 1)%nat; [auto|].
    destruct (negb confirmed); [auto|].
    cbv zeta. unfold fst. rewrite setActive_files.
    unfold ensureActiveExists. destruct (negb _); simpl; intros H;
      apply In_keys_delete in H; left; apply H.
Qed.

End FileOperationFacts.




(** After the stale rename the stored text has no entry for the new name:
    a reload finds one file where the page has two. *)
Lemma stale_rename_reload :
  storage (run [OpDelete "b.dart" true; OpRename "b.dart" (Some "n.dart")]
             (persist two_file_app))
  = Some (state stale_rename_app) /\
  startup (Some (inr (stored_state (state stale_rename_app))))
  = BootLoaded (mkApp (mkState [("a.dart", VStr "x")] "a.dart")
                      (Some (mkState [("a.dart", VStr "x")] "a.dart"))).
Proof. split; reflexivity. Qed.

(** X2: the file operations create no name without the extension: every
    key after a sequence of operations was a key before it or ends in
    [.dart]. *)
Theorem ops_only_add_dart_names (os : list op) (a : App) (k : string) :
  In k (Object_keys (files (state (run os a)))) ->
  In k (Object_keys (files (state a))) \/ endsWith k ".dart" = true.
Proof.
  revert a. unfold run. induction os as [|o os IH]; simpl; intros a H.
  - now left.
  - destruct (IH _ H) as [H1|H1]; [|now right].
    now apply keys_step in H1.
Qed.

Lemma ops_only_add_dart_names_witness :
  In "lib.dart" (Object_keys (files (state unnamed_file_app))) \/
  endsWith "lib.dart" ".dart" = true.
Proof.
  apply (ops_only_add_dart_names
           [OpAdd (Some "x.dart"); OpRename "x.dart" (Some "lib.dart")]
           unnamed_file_app "lib.dart").
  simpl. auto.
Defined.

Lemma setActive_fixed (f : props) (act : string) :
  setActive act (mkApp (mkState f act) (Some (mkState f act)))
  = mkApp (mkState f act) (Some (mkState f act)).
Proof. unfold setActive. simpl. now destruct (negb _). Qed.

(** X3: a rename that goes through moves the content to the new name: the
    entry of [oldName] is removed, the new entry holds its content and
    comes last in the key order, every other entry stays, and [active]
    follows the file when it was the renamed one. The result is
    persisted. *)
Theorem rename_moves_content (a : App) (oldName name : string) (content : value) :
  get_own (files (state a)) oldName = Some content ->
  endsWith name ".dart" = true ->
  ~ In name (Object_keys (files (state a))) ->
  promptRename oldName (Some name) a =
    (let st' := mkState (delete_prop (files (state a)) oldName
                         ++ [(name, content)])%list
                        (if active (state a) =? oldName then name
                         else active (state a)) in
     mkApp st' (Some st'), None).
Proof.
  destruct a as [[f act] sto].
  cbn [state files active]. intros Hold Hd Hn. unfold promptRename.
  cbn [state files active].
  assert (Hne : name <> oldName).
  { intros ->. apply Hn, get_own_In. congruence. }
  apply dart_not_empty in Hd as H0. apply String.eqb_neq in H0.
  apply String.eqb_neq in Hne as Hneb.
  rewrite H0, Hneb, Hd. simpl orb. simpl negb. cbv iota.
  rewrite (get_dart _ _ Hd).
  destruct (get_own f name) eqn:E.
  { exfalso. apply Hn, get_own_In. congruence. }
  simpl truthy. cbv iota zeta.
  assert (G : get f oldName = content) by (unfold get; now rewrite Hold).
  rewrite G, (set_prop_new _ _ _ Hd Hn).
  cbn [with_files with_active persist state files active storage fst].
  rewrite delete_prop_app.
  assert (D : delete_prop [(name, content)] oldName = [(name, content)]).
  { unfold delete_prop. simpl. now rewrite Hneb. }
  rewrite D.
  destruct (act =? oldName);
    unfold persist, with_active, with_files; cbn [state files active storage];
    now rewrite setActive_fixed.
Qed.

Lemma rename_moves_content_witness :
  promptRename "a.dart" (Some "c.dart") empty_file_app =
    (mkApp (mkState [("b.dart", VStr ""); ("c.dart", VStr "x")] "c.dart")
           (Some (mkState [("b.dart", VStr ""); ("c.dart", VStr "x")] "c.dart")),
     None).
Proof.
  apply (rename_moves_content empty_file_app "a.dart" "c.dart" (VStr "x")).
  - reflexivity.
  - reflexivity.
  - simpl. intuition discriminate.
Defined.

Lemma promptDelete_confirmed (a : App) (name : string) :
  length (Object_keys (files (state a))) <> 1%nat ->
  promptDelete name true a =
    (let f' := delete_prop (files (state a)) name in
     let st' := mkState f'
                  (if truthy (get f' (active (state a)))
                   then active (state a) else first_key_or_default f') in
     mkApp st' (Some st'), None).
Proof.
  destruct a as [[f act] sto]. cbn [state files active]. intros Hlen.
  unfold promptDelete. cbn [state files active].
  apply Nat.eqb_neq in Hlen. rewrite Hlen. simpl negb. cbv iota zeta.
  unfold ensureActiveExists, persist, with_active, with_files.
  cbn [state files active storage].
  destruct (truthy (get (delete_prop f name) act));
    simpl negb; cbv iota; cbn [state files active storage];
    now rewrite setActive_fixed.
Qed.

(** X4: deleting the active file of a project with several files makes
    the first remaining file, in key order, the active one, and persists
    the result. *)
Theorem delete_active_selects_first (a : App) :
  is_object (files (state a)) ->
  well_named (files (state a)) ->
  In (active (state a)) (Object_keys (files (state a))) ->
  length (Object_keys (files (state a))) <> 1%nat ->
  exists first,
    hd_error (Object_keys (delete_prop (files (state a)) (active (state a))))
      = Some first /\
    promptDelete (active (state a)) true a =
      (let st' := mkState (delete_prop (files (state a)) (active (state a)))
                          first in
       mkApp st' (Some st'), None).
Proof.
  intros Ho Hw Hin Hlen.
  rewrite (promptDelete_confirmed a _ Hlen). cbv zeta.
  set (f' := delete_prop (files (state a)) (active (state a))).
  assert (Hd : endsWith (active (state a)) ".dart" = true)
    by exact (well_named_In _ _ Hw Hin).
  assert (T : truthy (get f' (active (state a))) = false).
  { rewrite (get_dart _ _ Hd). unfold f'. now rewrite get_own_delete_same. }
  rewrite T.
  assert (Hne : f' <> []).
  { apply delete_leaves_one; auto. eapply keys_nonempty_In, Hin. }
  destruct f' as [|[k v] r] eqn:Ef; [congruence|].
  exists k. split; [reflexivity|].
  unfold first_key_or_default. simpl.
  assert (Hk : endsWith k ".dart" = true).
  { apply (well_named_In f'); [now apply well_named_delete|].
    rewrite Ef. now left. }
  apply dart_not_empty, String.eqb_neq in Hk. now rewrite Hk.
Qed.

Lemma delete_active_selects_first_witness :
  exists first,
    hd_error (Object_keys (delete_prop (files (state empty_file_app))
                             (active (state empty_file_app))))
      = Some first /\
    promptDelete (active (state empty_file_app)) true empty_file_app =
      (let st' := mkState (delete_prop (files (state empty_file_app))
                             (active (state empty_file_app))) first in
       mkApp st' (Some st'), None).
Proof.
  apply (delete_active_selects_first empty_file_app).
  - unfold is_object. simpl. repeat constructor; simpl; intuition discriminate.
  - repeat constructor.
  - simpl. auto.
  - simpl. discriminate.
Defined.

(** X5: deleting a file other than the active one, whose entry reads
    truthy, removes that key only and leaves [active] where it is. *)
Theorem delete_other_keeps_active (a : App) (name : string) :
  length (Object_keys (files (state a))) <> 1%nat ->
  name <> active (state a) ->
  truthy (get (files (state a)) (active (state a))) = true ->
  promptDelete name true a =
    (let st' := mkState (delete_prop (files (state a)) name)
                        (active (state a)) in
     mkApp st' (Some st'), None).
Proof.
  intros Hlen Hne T. rewrite (promptDelete_confirmed a _ Hlen). cbv zeta.
  rewrite get_delete_other by congruence. now rewrite T.
Qed.

Lemma delete_other_keeps_active_witness :
  promptDelete "b.dart" true empty_file_app =
    (mkApp (mkState [("a.dart", VStr "x")] "a.dart")
           (Some (mkState [("a.dart", VStr "x")] "a.dart")), None).
Proof.
  apply (delete_other_keeps_active empty_file_app "b.dart").
  - simpl. discriminate.
  - discriminate.
  - reflexivity.
Defined.

(** X6: ensureActiveExists repairs a dangling pointer: when [files] has a
    key, every key ends in [.dart] and [active] is no name that objects
    inherit, [active] is a key afterwards, and [files] is untouched. *)
Theorem ensureActiveExists_repairs (a : App) :
  files (state a) <> [] ->
  well_named (files (state a)) ->
  inherited (active (state a)) = false ->
  files (state (ensureActiveExists a)) = files (state a) /\
  In (active (state (ensureActiveExists a))) (Object_keys (files (state a))).
Proof.
  intros Hne Hw Hi. unfold ensureActiveExists.
  destruct (truthy (get (files (state a)) (active (state a)))) eqn:T;
    simpl negb; cbv iota.
  - split; [reflexivity|]. apply get_own_In. unfold get in T.
    destruct (get_own (files (state a)) (active (state a)));
      [discriminate|]. rewrite Hi in T. discriminate T.
  - split; [reflexivity|]. simpl. unfold first_key_or_default.
    destruct (files (state a)) as [|[k v] r]; [congruence|]. simpl.
    assert (Hk : endsWith k ".dart" = true)
      by (inversion Hw; assumption).
    apply dart_not_empty, String.eqb_neq in Hk. rewrite Hk. now left.
Qed.

Lemma ensureActiveExists_repairs_witness :
  In (active (state (ensureActiveExists (mkApp dangling_state None))))
     (Object_keys (files dangling_state)).
Proof.
  apply (ensureActiveExists_repairs (mkApp dangling_state None)).
  - discriminate.
  - repeat constructor.
  - reflexivity.
Defined.

(** X7: setActive never leaves the pointer dangling: asked for a name
    that is missing, or whose entry is empty, it changes nothing; and
    in a valid project it keeps the project valid, for any name that
    objects do not inherit. *)
Theorem setActive_keeps_valid (a : App) (name : string) :
  valid (state a) ->
  inherited name = false ->
  valid (state (setActive name a)) /\
  (truthy (get (files (state a)) name) = false -> setActive name a = a).
Proof.
  intros (Ho & Hne & Hin) Hi. split.
  - unfold valid. rewrite setActive_files, setActive_active.
    repeat split; auto.
    destruct (truthy (get (files (state a)) name)) eqn:T; [|exact Hin].
    apply get_own_In. unfold get in T.
    destruct (get_own (files (state a)) name); [discriminate|].
    rewrite Hi in T. discriminate T.
  - intros T. unfold setActive. now rewrite T.
Qed.

Lemma setActive_keeps_valid_witness :
  valid (state (setActive "b.dart" empty_file_app)) /\
  (truthy (get (files (state empty_file_app)) "b.dart") = false ->
   setActive "b.dart" empty_file_app = empty_file_app).
Proof.
  apply (setActive_keeps_valid empty_file_app "b.dart").
  - unfold valid, is_object. simpl. repeat split.
    + repeat constructor; simpl; intuition discriminate.
    + discriminate.
    + now left.
  - reflexivity.
Defined.

Lemma promptNewFile_fresh (a : App) (name : string) :
  endsWith name ".dart" = true ->
  ~ In name (Object_keys (files (state a))) ->
  promptNewFile (Some name) a =
    (let st' := mkState (files (state a)
                         ++ [(name, VStr ("// " ++ name ++ LF))])%list name in
     mkApp st' (Some st'), None).
Proof.
  destruct a as [[f act] sto]. cbn [state files active]. intros Hd Hn.
  unfold promptNewFile. cbn [state files active].
  apply dart_not_empty in Hd as H0. apply String.eqb_neq in H0.
  rewrite H0, Hd. simpl negb. cbv iota.
  rewrite (get_dart _ _ Hd).
  destruct (get_own f name) eqn:E.
  { exfalso. apply Hn, get_own_In. congruence. }
  simpl truthy. cbv iota zeta. rewrite (set_prop_new _ _ _ Hd Hn).
  set (seed := VStr ("// " ++ name ++ LF)).
  unfold persist, with_files. cbn [state files active storage].
  unfold setActive. cbn [state files active].
  rewrite (get_dart _ _ Hd), <- (set_prop_new _ _ seed Hd Hn),
    get_own_set_same.
  reflexivity.
Qed.

(** X8: adding a new file and deleting it again restores the [files]
    mapping exactly; [active] does not return to the file that was active
    before but becomes the first key (or "main.dart" if that key is the
    empty name). *)
Theorem add_then_delete_restores_files (a : App) (name : string) :
  files (state a) <> [] ->
  endsWith name ".dart" = true ->
  ~ In name (Object_keys (files (state a))) ->
  state (run [OpAdd (Some name); OpDelete name true] a)
    = mkState (files (state a)) (first_key_or_default (files (state a))).
Proof.
  intros Hne Hd Hn. unfold run. cbn [fold_left step].
  rewrite (promptNewFile_fresh a name Hd Hn).
  cbn [fst]. cbv zeta.
  rewrite promptDelete_confirmed.
  2:{ cbn [state files]. unfold Object_keys. rewrite length_map, length_app.
      simpl. destruct (files (state a)); [congruence | simpl; lia]. }
  cbn [fst state files active]. cbv zeta.
  rewrite delete_prop_app, (delete_prop_absent _ _ Hn).
  assert (D : delete_prop [(name, VStr ("// " ++ name ++ LF))] name = []).
  { unfold delete_prop. simpl. now rewrite String.eqb_refl. }
  rewrite D, app_nil_r.
  rewrite (get_dart _ _ Hd).
  destruct (get_own (files (state a)) name) eqn:E.
  { exfalso. apply Hn, get_own_In. congruence. }
  reflexivity.
Qed.

Lemma add_then_delete_restores_files_witness :
  state (run [OpAdd (Some "utils.dart"); OpDelete "utils.dart" true]
           empty_file_app)
  = mkState (files (state empty_file_app)) "a.dart".
Proof.
  apply (add_then_delete_restores_files empty_file_app "utils.dart").
  - discriminate.
  - reflexivity.
  - simpl. intuition discriminate.
Defined.

(** ** Start-up, reset and the views *)

Section ViewFacts.

Lemma valid_default_state : valid default_state.
Proof.
  unfold valid, is_object; simpl. repeat split.
  - repeat constructor. simpl. tauto.
  - discriminate.
  - now left.
Qed.

Lemma well_named_default_state : well_named (files default_state).
Proof. repeat constructor. Qed.

Lemma split_lines_nonempty (s : string) : split_lines s <> [].
Proof.
  induction s as [|c r IH]; simpl; [discriminate|].
  destruct (c =? LFchar)%char; [discriminate|].
  destruct (split_lines r); [contradiction | discriminate].
Qed.

(** Text without a line feed is one line. *)
Lemma split_lines_cons (c : ascii) (r : string) :
  (c =? LFchar)%char = false -> split_lines r = [r] ->
  split_lines (String c r) = [String c r].
Proof. intros Hc Hr. simpl. now rewrite Hc, Hr. Qed.

Lemma split_lines_single_inv (c : ascii) (r : string) :
  split_lines (String c r) = [String c r] ->
  (c =? LFchar)%char = false /\ split_lines r = [r].
Proof.
  simpl. destruct (c =? LFchar)%char.
  - intros H. inversion H.
  - destruct (split_lines r) as [|l ls] eqn:E.
    + now apply split_lines_nonempty in E.
    + intros H. injection H as -> ->. auto.
Qed.

Lemma split_lines_String (c : ascii) (s : string) :
  split_lines (String c s) =
  if (c =? LFchar)%char then EmptyString :: split_lines s
  else match split_lines s with
       | l :: ls => String c l :: ls
       | [] => [String c EmptyString]
       end.
Proof. reflexivity. Qed.

Lemma split_lines_app_LF (x r : string) :
  split_lines x = [x] ->
  split_lines (x ++ LF ++ r) = x :: split_lines r.
Proof.
  induction x as [|c x IH]; intros H.
  - reflexivity.
  - apply split_lines_single_inv in H as [Hc Hx].
    change ((String c x ++ LF ++ r)) with (String c (x ++ LF ++ r)).
    rewrite split_lines_String, Hc, (IH Hx). reflexivity.
Qed.

Lemma split_lines_join (xs : list string) :
  xs <> [] -> Forall (fun x => split_lines x = [x]) xs ->
  split_lines (join LF xs) = xs.
Proof.
  induction xs as [|x r IH]; intros Hne Hall; [congruence|].
  inversion Hall as [|? ? Hx Hr]; subst.
  destruct r as [|y r'].
  - exact Hx.
  - change (join LF (x :: y :: r')) with (x ++ LF ++ join LF (y :: r')).
    rewrite (split_lines_app_LF _ _ Hx), IH; [reflexivity | discriminate
                                             | exact Hr].
Qed.

Lemma digits_one_line (d : Decimal.uint) :
  split_lines (NilEmpty.string_of_uint d) = [NilEmpty.string_of_uint d].
Proof.
  induction d; simpl NilEmpty.string_of_uint;
    [reflexivity | apply split_lines_cons; [reflexivity | assumption] ..].
Qed.

Lemma nat_toString_one_line (n : nat) :
  split_lines (nat_toString n) = [nat_toString n].
Proof.
  unfold nat_toString, NilZero.string_of_uint.
  destruct (Nat.to_uint n); try apply digits_one_line. reflexivity.
Qed.

Lemma split_lines_line_numbers (text : string) :
  split_lines (line_numbers text)
  = map nat_toString (seq 1 (List.length (split_lines text))).
Proof.
  unfold line_numbers. apply split_lines_join.
  - pose proof (split_lines_nonempty text).
    destruct (split_lines text); [congruence | discriminate].
  - apply Forall_forall. intros x Hx. apply in_map_iff in Hx.
    destruct Hx as (n & <- & _). apply nat_toString_one_line.
Qed.

Lemma gutter_lines (text : string) :
  List.length (split_lines (line_numbers text))
  = List.length (split_lines text).
Proof. now rewrite split_lines_line_numbers, length_map, length_seq. Qed.

End ViewFacts.

(** X9: start-up never begins with an empty project, and what it begins
    with is in [localStorage]: with nothing stored, a text that does not
    parse, or a stored state whose [files] is missing or has no key, the
    page starts on the default project, persisted; a stored project that
    is kept has at least one file. *)
Theorem startup_has_files (stored : option (error + value)) :
  (no_keys (field (loadState stored) "files") = true ->
   startup stored = BootDefault default_app) /\
  match startup stored with
  | BootDefault a => a = default_app
  | BootLoaded a => files (state a) <> [] /\ storage a = Some (state a)
  | BootUntyped _ => True
  end.
Proof.
  unfold startup. split.
  - intros H. rewrite H, orb_true_r. reflexivity.
  - destruct (negb (truthy (loadState stored))
              || negb (truthy (field (loadState stored) "files"))
              || no_keys (field (loadState stored) "files")) eqn:E.
    + reflexivity.
    + apply orb_false_elim in E as [_ Hk].
      destruct (field (loadState stored) "files") as [ | |b|z|s|l|ps|n];
        try exact I.
      destruct (field (loadState stored) "active"); try exact I.
      cbv zeta. cbn [state active]. rewrite setActive_fixed.
      split; [|reflexivity]. simpl. destruct ps; [discriminate Hk|discriminate].
Qed.

Lemma startup_has_files_witness :
  startup (Some (inr (VObj [("files", VObj []); ("active", VStr "x.dart")])))
  = BootDefault default_app.
Proof.
  apply (startup_has_files
           (Some (inr (VObj [("files", VObj []); ("active", VStr "x.dart")])))).
  reflexivity.
Defined.



(** X11: a confirmed reset recovers from any state, also one that an
    import broke: it puts the default project in place and persists it,
    and whatever file operations follow, the project stays valid with
    [active] a key of [files]. A reset that is declined changes nothing. *)
Theorem hardReset_recovers (a : App) (ui : UIState) (os : list op) :
  fst (hardReset true a ui) = default_app /\
  valid (state (run os (fst (hardReset true a ui)))) /\
  In (active (state (run os (fst (hardReset true a ui)))))
     (Object_keys (files (state (run os (fst (hardReset true a ui)))))) /\
  hardReset false a ui = (a, ui).
Proof.
  assert (E : fst (hardReset true a ui) = default_app) by reflexivity.
  rewrite E.
  destruct (inv_run os default_app) as [Hv _].
  { split; [exact valid_default_state | exact well_named_default_state]. }
  repeat split; try apply Hv.
Qed.

(** X12: the gutter numbers the lines of the text: its lines are 1, 2,
    ..., one for every line of the editor's text, so the empty text gets
    the single number 1. *)
Theorem gutter_numbers_every_line (text : string) :
  split_lines (line_numbers text)
  = map nat_toString (seq 1 (List.length (split_lines text))) /\
  List.length (split_lines (line_numbers text))
  = List.length (split_lines text).
Proof.
  split; [apply split_lines_line_numbers | apply gutter_lines].
Qed.

(** X13: the file list has one button per key, in key order, and marks
    exactly the active file: one button carries the [active] class when
    [active] is a key, none when it dangles. *)
Theorem file_list_marks_active (st : State) :
  is_object (files st) ->
  map btn_text (renderFileList st) = Object_keys (files st) /\
  highlighted st =
    if has_own (files st) (active st)
    then [mkButton (active st) "file-item active"] else [].
Proof.
  intros Ho. split.
  - unfold renderFileList. rewrite map_map. simpl. apply map_id.
  - unfold highlighted, renderFileList, has_own.
    destruct st as [f act]. cbn [files active] in *.
    unfold is_object in Ho.
    induction f as [|[k v] r IH]; [reflexivity|].
    simpl in Ho. inversion Ho as [|? ? Hn Hd]; subst.
    cbn [Object_keys map fst filter btn_class get_own].
    destruct (String.eqb_spec k act) as [->|Hne].
    + simpl. f_equal.
      assert (Hno : get_own r act = None).
      { destruct (get_own r act) eqn:E; [|reflexivity].
        exfalso. apply Hn, get_own_In. congruence. }
      specialize (IH Hd). rewrite Hno in IH. exact IH.
    + simpl. exact (IH Hd).
Qed.

Lemma file_list_marks_active_witness :
  highlighted dangling_state = [] /\
  highlighted (state empty_file_app) = [mkButton "a.dart" "file-item active"].
Proof.
  split.
  - apply (file_list_marks_active dangling_state).
    unfold is_object. simpl. repeat constructor. simpl. tauto.
  - apply (file_list_marks_active (state empty_file_app)).
    unfold is_object. simpl. repeat constructor; simpl; intuition discriminate.
Defined.

(** X25: selecting a file shows it: for an entry that is a non-empty
    text [s], setActive makes the name active and persists (the project
    part is [setActive]), puts [s] with normalised newlines in the editor
    and the name in the title, and numbers every line in the gutter; for
    a missing or empty entry it changes nothing at all. *)
Theorem setActive_page_shows_file (h : host) (name : string) (a : App)
    (ed : Editor) :
  (truthy (get (files (state a)) name) = false ->
   setActive_page h name a ed = (a, ed)) /\
  (forall s,
     get (files (state a)) name = VStr s ->
     s <> "" ->
     setActive_page h name a ed
     = (setActive name a,
        mkEditor (normalize_newlines s) (line_numbers (normalize_newlines s))
                 name) /\
     setActive name a = persist (with_active a name) /\
     List.length (split_lines (line_nums (snd (setActive_page h name a ed))))
     = List.length (split_lines (normalize_newlines s))).
Proof.
  destruct a as [[f act] sto]. unfold setActive_page, setActive.
  cbn [state files active]. split.
  - intros T. now rewrite T.
  - intros s G Hs. rewrite G. apply String.eqb_neq in Hs.
    cbn [truthy]. rewrite Hs. cbn [negb]. cbv iota zeta.
    unfold with_active, persist. cbn [state files active storage].
    rewrite G. cbn [toString]. unfold refreshLineNumbers.
    cbn [editor_value line_nums filename_title snd].
    repeat split. apply gutter_lines.
Qed.

Lemma setActive_page_shows_file_witness :
  setActive_page host_down "b.dart" two_file_app (mkEditor "x" "1" "a.dart")
  = (setActive "b.dart" two_file_app, mkEditor "y" "1" "b.dart").
Proof.
  destruct (setActive_page_shows_file host_down "b.dart" two_file_app
              (mkEditor "x" "1" "a.dart")) as [_ H].
  destruct (H "y" eq_refl) as [E _]; [discriminate | exact E].
Defined.



(** Typing under the dangling name ["__proto__"] creates no file. *)
Lemma editorInput_proto_example :
  state (editorInput "z" (mkApp (mkState [("a.dart", VStr "x")] "__proto__")
                                None))
  = mkState [("a.dart", VStr "x")] "__proto__".
Proof. reflexivity. Qed.

(** ** More on the backend client *)

Section BackendFacts.

Variable h : host.

Lemma attempts_length (bases : list string) (path : string) (payload : value) :
  forall n, List.length (attempts h bases path payload n) = List.length bases.
Proof. induction bases as [|b r IH]; intros n; simpl; auto. Qed.

Lemma first_success_bound (rs : list (error + value)) (i : nat) (v : value) :
  first_success rs = Some (i, v) -> (i < List.length rs)%nat.
Proof.
  revert i. induction rs as [|[e|w] r IH]; intros i H; simpl in *.
  - discriminate.
  - destruct (first_success r) as [[i' v']|]; [|discriminate].
    injection H as <- <-. specialize (IH i' eq_refl). lia.
  - injection H as <- <-. lia.
Qed.

(** A falsy value has no [issues] of its own. *)
Lemma opt_field_falsy (v : value) (k : string) :
  truthy v = false -> opt_field v k = VUndef.
Proof. destruct v; simpl; try reflexivity; discriminate. Qed.

Lemma issue_lines_length (act : string) (ps : list value) :
  forall out, issue_lines h act ps = inr out ->
              List.length out = List.length ps.
Proof.
  induction ps as [|p r IH]; simpl; intros out H.
  - injection H as <-. reflexivity.
  - destruct (issue_line h act p); [discriminate|].
    destruct (issue_lines h act r) as [|ls]; [discriminate|].
    injection H as <-. simpl. f_equal. now apply IH.
Qed.

(** The script [compile] hands over is never falsy. *)
Lemma compile_truthy (a : App) (n n' : nat) (js : value) :
  compile h a n = (inr js, n') -> truthy js = true.
Proof.
  unfold compile, bind.
  destruct (postJSON h "compile" (buildSourcePayload false a) n)
    as [[e|json] n1]; [discriminate|].
  destruct (probe_compiled h json n1) as [[e|js1] n2]; [discriminate|].
  destruct (truthy js1) eqn:T1; simpl negb; cbv iota.
  - unfold ret. simpl. rewrite T1. simpl.
    intros H. injection H as <- _. exact T1.
  - simpl.
    destruct (postJSON h "compile" (buildSourcePayload true a) n2)
      as [[e|json2] n3]; simpl; [discriminate|].
    destruct (probe_compiled h json2 n3) as [[e|js2] n4]; simpl;
      [discriminate|].
    unfold throw.
    destruct (truthy js2) eqn:T2; simpl; [|discriminate].
    intros H. injection H as <- _. exact T2.
Qed.

End BackendFacts.

(** X14: postJSON makes at least one request and at most one per
    backend, and it surfaces an error only after it has tried them all. *)
Theorem postJSON_request_bound (h : host) (path : string) (payload : value)
    (n : nat) :
  (n < snd (postJSON h path payload n) <= n + List.length BACKENDS)%nat /\
  match fst (postJSON h path payload n) with
  | inl _ => snd (postJSON h path payload n) = (n + List.length BACKENDS)%nat
  | inr _ => True
  end.
Proof.
  unfold postJSON. rewrite postJSON_loop_spec. cbv zeta.
  pose proof (attempts_length h BACKENDS path payload n) as Hl.
  destruct (first_success (attempts h BACKENDS path payload n))
    as [[i v]|] eqn:E; cbn [fst snd].
  - apply first_success_bound in E. rewrite Hl in E.
    split; [lia | exact I].
  - rewrite Hl. simpl. split; [lia | reflexivity].
Qed.

(** X15: what is sent for compilation and analysis: [source] is the
    project's ["main.dart"] when that entry reads truthy, and the default
    program when it is missing or empty; [sources] holds it under
    ["main.dart"] and every other file as the project has it. With
    [singleOnly] the payload is [source] alone. *)
Theorem payload_source_default (a : App) :
  let src := if truthy (get (files (state a)) "main.dart")
             then get (files (state a)) "main.dart"
             else VStr DEFAULT_MAIN in
  exists f' : props,
    buildSourcePayload false a = VObj [("sources", VObj f'); ("source", src)] /\
    buildSourcePayload true a = VObj [("source", src)] /\
    get_own f' "main.dart" = Some src /\
    forall k, k <> "main.dart" ->
              get_own f' k = get_own (files (state a)) k.
Proof.
  cbv zeta. exists (payload_files (files (state a))).
  rewrite !buildSourcePayload_eq. cbv zeta.
  unfold payload_files.
  destruct (truthy (get (files (state a)) "main.dart")) eqn:T;
    simpl negb; cbv iota.
  - assert (G : get_own (files (state a)) "main.dart"
                = Some (get (files (state a)) "main.dart")).
    { unfold get in *. destruct (get_own (files (state a)) "main.dart");
        [reflexivity | discriminate T]. }
    repeat split; auto.
  - assert (G : get (set_prop (files (state a)) "main.dart"
                       (get DEFAULT_FILES "main.dart")) "main.dart"
                = VStr DEFAULT_MAIN).
    { unfold get. now rewrite get_own_set_same. }
    rewrite G. repeat split.
    + apply get_own_set_same.
    + intros k Hk. now apply get_own_set_other.
Qed.

(** X16: renderAnalysis reads the issue list from [result.issues] only:
    whenever that value has no truthy [length] (it is missing, [null], a
    number, or an object, such as one that nests the list under a second
    [issues]), the report is the single line that no problem was found;
    the second probe, [result.issues?.issues], never contributes. *)
Theorem analysis_reads_issues_only (h : host) (act : string) (result : value) :
  nullish result = false ->
  truthy (length_of (field result "issues")) = false ->
  renderAnalysis_out h act result = inr [NO_PROBLEMS].
Proof.
  intros Hn Hl. unfold renderAnalysis_out. rewrite Hn.
  unfold or_else at 2.
  destruct (truthy (field result "issues")) eqn:T.
  - unfold or_else. rewrite T, Hl. reflexivity.
  - rewrite (opt_field_falsy _ _ T). reflexivity.
Qed.

Lemma analysis_reads_issues_only_witness :
  renderAnalysis_out host_down "main.dart"
    (VObj [("issues", VObj [("issues", VArr [VObj [("message", VStr "m")]])])])
  = inr [NO_PROBLEMS].
Proof.
  apply (analysis_reads_issues_only host_down "main.dart").
  - reflexivity.
  - reflexivity.
Defined.

(** X17: for a non-empty array of issues the report has exactly one entry
    per issue, whenever rendering does not throw. *)
Theorem analysis_one_line_per_issue (h : host) (act : string) (result : value)
    (l : list value) (out : list string) :
  field result "issues" = VArr l ->
  l <> [] ->
  renderAnalysis_out h act result = inr out ->
  List.length out = List.length l.
Proof.
  intros Hf Hne. unfold renderAnalysis_out.
  destruct (nullish result); [discriminate|].
  rewrite Hf. unfold or_else. simpl truthy. cbv iota.
  unfold length_of. simpl truthy.
  destruct l as [|p r]; [congruence|].
  replace (negb (negb (Z.of_nat (List.length (p :: r)) =? 0)%Z)) with false.
  2:{ symmetry. apply negb_false_iff, negb_true_iff, Z.eqb_neq.
      simpl List.length. lia. }
  cbn [iterate]. apply issue_lines_length.
Qed.

Lemma analysis_one_line_per_issue_witness :
  List.length
    ["[error] main.dart:3" ++ LF ++ "  oops";
     "[info] u.dart:?" ++ LF ++ "  undefined"] = 2%nat.
Proof.
  apply (analysis_one_line_per_issue host_down "main.dart"
           (VObj [("issues",
                   VArr [VObj [("kind", VStr "error"); ("line", VNum 3);
                               ("message", VStr "oops")];
                         VObj [("location",
                                VObj [("sourceName", VStr "u.dart")])]])])
           [VObj [("kind", VStr "error"); ("line", VNum 3);
                  ("message", VStr "oops")];
            VObj [("location", VObj [("sourceName", VStr "u.dart")])]]).
  - reflexivity.
  - discriminate.
  - reflexivity.
Defined.

(** X18: when the request of analyze fails, the failure is shown as an
    untimed error status and the console and the preview are left as they
    were: earlier output stays in place. *)
Theorem analyze_failure_keeps_console (h : host) (a : App) (ui : UIState)
    (n n' : nat) (e : error) :
  postJSON h "analyze" (buildSourcePayload false a) n = (inl e, n') ->
  analyze h a ui n =
    (mkUI (mkStatus ("解析失敗: " ++ err_message e) "error" false)
          (console ui) (preview ui), n').
Proof. intros H. unfold analyze. rewrite H. reflexivity. Qed.

Lemma analyze_failure_keeps_console_witness :
  analyze host_down example_app
    (mkUI (mkStatus "" "ok" false) [mkLine "log log" "[log] hello"] None) 0
  = (mkUI (mkStatus "解析失敗: Failed to fetch" "error" false)
          [mkLine "log log" "[log] hello"] None, 2%nat).
Proof.
  apply (analyze_failure_keeps_console host_down example_app
           (mkUI (mkStatus "" "ok" false) [mkLine "log log" "[log] hello"] None)
           0 2 fetch_failed).
  reflexivity.
Defined.

(** X19: when the request of formatCurrentFile fails, the project, the
    stored snapshot and the editor are untouched; only the status line
    changes, to an untimed error. *)
Theorem format_failure_changes_nothing (h : host) (a : App) (ed : Editor)
    (ui : UIState) (n n' : nat) (e : error) :
  postJSON h "format" (VObj [("source", VStr (editor_value ed))]) n
    = (inl e, n') ->
  formatCurrentFile h a ed ui n =
    (a, ed,
     mkUI (mkStatus ("整形失敗: " ++ err_message e) "error" false)
          (console ui) (preview ui), n').
Proof. intros H. unfold formatCurrentFile. rewrite H. reflexivity. Qed.

Lemma format_failure_changes_nothing_witness :
  formatCurrentFile host_down example_app
    (mkEditor "void main(){}" "1" "main.dart") blank_ui 0
  = (example_app, mkEditor "void main(){}" "1" "main.dart",
     mkUI (mkStatus "整形失敗: Failed to fetch" "error" false) [] None, 2%nat).
Proof.
  apply (format_failure_changes_nothing host_down example_app
           (mkEditor "void main(){}" "1" "main.dart") blank_ui 0 2 fetch_failed).
  reflexivity.
Defined.



(** X21: the message listener acts on a message whose [type] is the
    string "console", and on no other. For such a message with the text
    [text] and the level [level] (a missing or falsy level reads "log") it
    appends exactly one line to the console, "[level] text" with class
    "log level", and touches nothing else; any other message leaves the
    page as it was. *)
Theorem onMessage_appends_one_line (h : host) (data : value) (ui : UIState) :
  (forall level text,
     field data "type" = VStr "console" ->
     or_else (field data "level") (VStr "log") = VStr level ->
     field data "text" = VStr text ->
     onMessage h data ui =
       mkUI (status ui)
            (console ui
             ++ [mkLine ("log " ++ level) ("[" ++ level ++ "] " ++ text)])
            (preview ui)) /\
  (field data "type" <> VStr "console" -> onMessage h data ui = ui).
Proof.
  unfold onMessage. split.
  - intros level text Ht Hl Hx.
    assert (T : truthy data = true).
    { destruct data; try discriminate Ht. reflexivity. }
    rewrite T, Ht, Hl, Hx. reflexivity.
  - intros Hne. destruct (negb (truthy data)); [reflexivity|].
    destruct (field data "type") as [ | |b|z|t|l|ps|nm]; try reflexivity.
    destruct (String.eqb_spec t "console") as [->|_]; [congruence|reflexivity].
Qed.

Lemma onMessage_appends_one_line_witness :
  onMessage host_down
    (VObj [("type", VStr "console"); ("level", VStr "error");
           ("text", VStr "x")])
    blank_ui
  = mkUI (status blank_ui) [mkLine "log error" "[error] x"] (preview blank_ui).
Proof.
  apply (proj1 (onMessage_appends_one_line host_down
                  (VObj [("type", VStr "console"); ("level", VStr "error");
                         ("text", VStr "x")])
                  blank_ui) "error" "x"); reflexivity.
Defined.

(** X22: compileAndRun either fails, leaving the preview as it was under
    an error status, or runs a script that is truthy, with the console
    emptied and the status "完了": it never loads an empty script. *)
Theorem compileAndRun_runs_truthy_script (h : host) (a : App) (ui : UIState)
    (n : nat) :
  (preview (fst (compileAndRun h a ui n)) = preview ui /\
   status_kind (status (fst (compileAndRun h a ui n))) = "error") \/
  exists js,
    truthy js = true /\
    fst (compileAndRun h a ui n) = ran js ui.
Proof.
  unfold compileAndRun.
  destruct (compile h a n) as [[e|js] n'] eqn:E.
  - left. split; reflexivity.
  - cbn [fst finish_compile]. cbv zeta.
    destruct (unconvertible js).
    + left. split; reflexivity.
    + right. exists js. split; [|reflexivity].
      exact (compile_truthy h a n n' js E).
Qed.

(** X23: in the local-runtime variant a compile that fails with [e]
    (no truthy ["main.dart"], a ["main.dart"] that the encoder cannot
    convert to text, the SDK not loaded, an error thrown by the compiler,
    an empty output) is reported as the untimed error status
    "コンパイル失敗: " + e.message and two console lines, the error's stack
    or string form and its message; the preview is untouched. *)
Theorem local_compile_failure_reported (h : host) (rt : runtime) (a : App)
    (ui : UIState) (e : error) :
  compile_local h rt a = inl e ->
  compileAndRun_local h rt a ui =
    mkUI (mkStatus ("コンパイル失敗: " ++ err_message e) "error" false)
         [mkLine "log error" ("[error] " ++ stack_or_string e);
          mkLine "log error"
            ("[error] " ++ (if err_message e =? "" then error_toString e
                            else err_message e))]
         (preview ui).
Proof.
  intros H. unfold compileAndRun_local. rewrite H. reflexivity.
Qed.

Lemma local_compile_failure_reported_witness :
  status (compileAndRun_local host_down None example_app blank_ui)
  = mkStatus "コンパイル失敗: dart_sdk_new.js が読み込まれていません"
      "error" false.
Proof.
  rewrite (local_compile_failure_reported host_down None example_app blank_ui
             (new_Error host_down "dart_sdk_new.js が読み込まれていません")).
  - reflexivity.
  - reflexivity.
Defined.

(** The encoder runs before the check for the SDK: with no SDK loaded, a
    [main.dart] that cannot be converted is reported as such. *)
Lemma local_compile_encodes_first :
  compile_local host_down None
    (mkApp (mkState [("main.dart", VObj [("toString", VNum 1)])] "main.dart")
           None)
  = inl (to_primitive_TypeError host_down).
Proof. reflexivity. Qed.

(** X24: an import never leaves [active] falsy: whatever the document,
    the pointer it sets is the document's [active] when that is truthy and
    "main.dart" otherwise. *)
Theorem import_active_truthy (h : host) (parsed : error + value) (a : App)
    (v : value) :
  imported_active (importProject h parsed a) = Some v ->
  truthy v = true.
Proof.
  unfold importProject. destruct parsed as [e|obj]; [discriminate|].
  destruct (nullish obj); [discriminate|].
  destruct (negb (truthy (field obj "files"))
            || negb (typeof (field obj "files") =? "object"));
    [discriminate|].
  assert (T : truthy (or_else (field obj "active") (VStr "main.dart")) = true).
  { unfold or_else. destruct (truthy (field obj "active")) eqn:T; auto. }
  destruct (field obj "files") as [ | |b|z|s|l|ps|nm];
    try (simpl; intros H; injection H as <-; exact T).
  destruct (or_else (field obj "active") (VStr "main.dart"))
    as [ | |b|z|s| | | ] eqn:Ea;
    try (simpl; intros H; injection H as <-; exact T).
  cbv zeta. cbn [imported_active]. rewrite setActive_active.
  cbn [state files active persist].
  intros H. injection H as <-.
  now destruct (truthy (get ps s)).
Qed.

Lemma import_active_truthy_witness :
  truthy (VStr "main.dart") = true.
Proof.
  apply (import_active_truthy host_down (inr doc_no_files) example_app).
  reflexivity.
Defined.
